(** * go-radiko: program lookup and time-shift playlist resolution

    A shallow embedding of the package's programme file (the schedule record
    model, the two programme lookups and the schedule fetches they wrap) and
    of [timeshift.go] (the playlist resolver), together with the properties of
    these functions.

    Go values are modelled as follows.
    - [string] is a Rocq [string] (a sequence of 8-bit characters, as in Go).
    - [int] is a [Z]; [strconv.Atoi] keeps its results inside the 64-bit range.
    - A Go result pair [(v, err)] is a Rocq pair whose second component is an
      [option error] ([None] is [nil]); pointers that may be [nil] are options.
    - [map[string]string] is a [gmap string string].
    - Calls that leave the process (request construction, HTTP round trips,
      body reads) are answered by a client/environment record and logged in a
      trace; a run-time panic is an outcome of its own. *)

From Stdlib Require Import ZArith Ascii String List Lia.
From stdpp Require Import base strings gmap list.

Open Scope string_scope.
Open Scope list_scope.

(** ** Errors *)

(** Go compares error values by identity.  A value held by a package-level
    variable is named by that variable; a value created by [errors.New] inside
    a function body is a fresh object that is never identical to a
    package-level one. *)
Inductive error : Type :=
| ErrorsNew (text : string)
| PkgVar (pkg name : string)
| NumError (Func Num : string) (Err : error)
| OtherError (text : string).

Definition error_eqb_dec : ∀ a b : error, {a = b} + {a ≠ b}.
Proof. decide equality; apply string_dec. Defined.

#[global] Instance error_eq_dec : EqDecision error := error_eqb_dec.

(** Modelled from the spec: [ErrProgramNotFound] is declared in a file of the
    package that is not part of the sources at hand; the spec calls it the
    distinguished, named "program not found" condition.  It is a package-level
    error variable. *)
Definition ErrProgramNotFound : error := PkgVar "radiko" "ErrProgramNotFound".

(** ** strconv.Atoi (Go standard library, 64-bit [int]) *)

Module strconv.

Definition ErrSyntax : error := PkgVar "strconv" "ErrSyntax".
Definition ErrRange : error := PkgVar "strconv" "ErrRange".

Definition syntaxError (fn str : string) : error := NumError fn str ErrSyntax.
Definition rangeError (fn str : string) : error := NumError fn str ErrRange.

Definition byte (c : ascii) : Z := Z.of_N (N_of_ascii c).

(** ['0' <= c && c <= '9'] *)
Definition is_digit (c : ascii) : bool :=
  ((48 <=? byte c) && (byte c <=? 57))%Z.

Definition maxUint64 : Z := 2 ^ 64 - 1.

(** The body of [ParseUint]'s loop for base 10 and bit size 64.  A letter is
    a digit value of at least 10, which base 10 rejects like any other
    character; underscores are accepted for base 0 only. *)
Fixpoint ParseUint_loop (s0 : string) (n : Z) (s : string) : Z * option error :=
  match s with
  | EmptyString => (n, None)
  | String c s' =>
      if is_digit c then
        let d := (byte c - 48)%Z in
        if (maxUint64 / 10 + 1 <=? n)%Z then
          (maxUint64, Some (rangeError "ParseUint" s0))
        else
          let n1 := (n * 10 + d)%Z in
          if (maxUint64 <? n1)%Z then
            (maxUint64, Some (rangeError "ParseUint" s0))
          else ParseUint_loop s0 n1 s'
      else (0%Z, Some (syntaxError "ParseUint" s0))
  end.

Definition ParseUint (s : string) : Z * option error :=
  match s with
  | EmptyString => (0%Z, Some (syntaxError "ParseUint" s))
  | _ => ParseUint_loop s 0 s
  end.

Definition is_sign (c : ascii) : bool :=
  Ascii.eqb c "+" || Ascii.eqb c "-".

(** [ParseInt(s, 10, 0)] *)
Definition ParseInt (s0 : string) : Z * option error :=
  match s0 with
  | EmptyString => (0%Z, Some (syntaxError "ParseInt" s0))
  | String c rest =>
      let neg := Ascii.eqb c "-" in
      let s := if is_sign c then rest else s0 in
      let '(un, err) := ParseUint s in
      let cutoff := (2 ^ 63)%Z in
      let convert :=
        if negb neg && (cutoff <=? un)%Z then
          ((cutoff - 1)%Z, Some (rangeError "ParseInt" s0))
        else if neg && (cutoff <? un)%Z then
          ((- cutoff)%Z, Some (rangeError "ParseInt" s0))
        else ((if neg then - un else un)%Z, None) in
      match err with
      | None => convert
      | Some (NumError _ _ e) =>
          if decide (e = ErrRange) then convert
          else (0%Z, Some (NumError "ParseInt" s0 e))
      | Some e => (0%Z, Some e)
      end
  end.

(** The fast path's loop: [None] stands for the syntax error. *)
Fixpoint Atoi_loop (n : Z) (s : string) : option Z :=
  match s with
  | EmptyString => Some n
  | String ch s' =>
      if is_digit ch then Atoi_loop (n * 10 + (byte ch - 48))%Z s' else None
  end.

Definition Atoi (s0 : string) : Z * option error :=
  let sLen := String.length s0 in
  if (0 <? sLen)%nat && (sLen <? 19)%nat then
    match s0 with
    | EmptyString => (0%Z, Some (syntaxError "Atoi" s0))
    | String c rest =>
        let s := if is_sign c then rest else s0 in
        if (String.length s <? 1)%nat then (0%Z, Some (syntaxError "Atoi" s0))
        else
          match Atoi_loop 0 s with
          | None => (0%Z, Some (syntaxError "Atoi" s0))
          | Some n => ((if Ascii.eqb c "-" then - n else n)%Z, None)
          end
    end
  else
    let '(i64, err) := ParseInt s0 in
    (i64,
     match err with
     | Some (NumError _ num e) => Some (NumError "Atoi" num e)
     | other => other
     end).

(** What the callers see as "an integer string": an optional sign followed
    by one or more decimal digits. *)
Fixpoint all_digits (s : string) : bool :=
  match s with
  | EmptyString => true
  | String c s' => is_digit c && all_digits s'
  end.

Definition numeric (s : string) : bool :=
  match s with
  | EmptyString => false
  | String c rest =>
      let body := if is_sign c then rest else s in
      negb (String.eqb body "") && all_digits body
  end.

End strconv.

(** ** Schedule record model *)

(** [Prog] is a struct. *)
Record Prog : Type := mkProg {
  Ft : string;
  To : string;
  Ftl : string;
  Tol : string;
  Dur : string;
  Title : string;
  SubTitle : string;
  Desc : string;
  Pfm : string;
  Info : string;
  URL : string
}.

(** [Progs] is a slice of [Prog] with its date. *)
Record Progs : Type := mkProgs {
  Progs_Date : string;
  Progs_Progs : list Prog
}.

Record Scd : Type := mkScd {
  Scd_Progs : Progs
}.

Record Station : Type := mkStation {
  Station_ID : string;
  Station_Name : string;
  Station_Scd : Scd;
  Station_Progs : Progs
}.

Definition Stations : Type := list Station.

Record xml_Name : Type := mk_xml_Name {
  Space : string;
  Local : string
}.

Record stationsData_XMLStations : Type := mkXMLStations {
  XMLStations_XMLName : xml_Name;
  XMLStations_Stations : Stations
}.

(** [stationsData] is the decoded response of the programme endpoints. *)
Record stationsData : Type := mkStationsData {
  XMLName : xml_Name;
  XMLStations : stationsData_XMLStations
}.

(** The zero value of [var d stationsData]. *)
Definition stationsData_zero : stationsData :=
  mkStationsData (mk_xml_Name "" "") (mkXMLStations (mk_xml_Name "" "") []).

(** [RadioStation] is an entry of the station list. *)
Record RadioStation : Type := mkRadioStation {
  RadioStation_ID : string;
  RadioStation_Name : string
}.

Definition RadioStations : Type := list RadioStation.

(** [radioStationsData] is the decoded response of the station list. *)
Record radioStationsData : Type := mkRadioStationsData {
  radioStationsData_XMLName : xml_Name;
  radioStationsData_RadioStations : RadioStations
}.

(** The zero value of [var d radioStationsData]. *)
Definition radioStationsData_zero : radioStationsData :=
  mkRadioStationsData (mk_xml_Name "" "") [].

(** [Params]: declared outside the sources at hand; the functions here set its
    [query] field only. *)
Record Params : Type := mkParams {
  query : gmap string string
}.

(** [&Params{}] *)
Definition Params_empty : Params := mkParams ∅.

(** ** Effects: the trace of external calls, and panics *)

Inductive outcome (A : Type) : Type :=
| Ret (a : A)
| Panic (msg : string).
Arguments Ret {A} a.
Arguments Panic {A} msg.

Section Radiko.

(** [time.Time], [context.Context], [*http.Request] and the body of an
    [*http.Response] ([io.ReadCloser]) are opaque to the functions here. *)
Context {Time Ctx Request ReadCloser : Type}.

Record Response : Type := mkResponse {
  Body : ReadCloser
}.

Inductive event : Type :=
| EvNewRequest (ctx : Ctx) (method endpoint : string) (params : Params)
| EvDo (req : option Request)
| EvCallWithAuthTokenHeader (req : option Request)
| EvReadAll (r : ReadCloser)
| EvGetURIFromM3U8 (r : ReadCloser)
| EvClose (r : ReadCloser).

Definition trace : Type := list event.

(** A computation reads the trace so far, extends it, and returns or
    panics. *)
Definition M (A : Type) : Type := trace → outcome A * trace.

Definition ret {A} (a : A) : M A := λ tr, (Ret a, tr).

Definition panic {A} (msg : string) : M A := λ tr, (Panic msg, tr).

Definition bind {A B} (m : M A) (k : A → M B) : M B :=
  λ tr, match m tr with
        | (Ret a, tr') => k a tr'
        | (Panic msg, tr') => (Panic msg, tr')
        end.

#[local] Instance M_ret : MRet M := @ret.
#[local] Instance M_bind : MBind M := λ A B k m, bind m k.

(** An external call: the answer may depend on everything that happened
    before; the call is appended to the trace. *)
Definition call {A} (ev : event) (answer : trace → outcome A) : M A :=
  λ tr, (answer tr, tr ++ [ev]).

(** [defer f()] around the rest of the function body: [f] runs when the body
    returns and also when it panics. *)
Definition defer {A} (f : M unit) (body : M A) : M A :=
  λ tr, match body tr with
        | (r, tr') =>
            match f tr' with
            | (Ret _, tr'') => (r, tr'')
            | (Panic msg, tr'') => (Panic msg, tr'')
            end
        end.

(** Selecting a field through a pointer. *)
Definition deref {A} (p : option A) : M A :=
  match p with
  | Some a => ret a
  | None => panic "invalid memory address or nil pointer dereference"
  end.

(** The methods of [*Client] that are declared outside the sources at hand.
    Each answers from the trace so far and its arguments. *)
Record Client : Type := mkClient {
  AreaID : string;
  newRequest :
    trace → Ctx → string → string → Params → outcome (option Request * option error);
  Do : trace → option Request → outcome (option Response * option error);
  CallWithAuthTokenHeader :
    trace → option Request → outcome (option Response * option error)
}.

(** Package-level constants and helpers declared outside the sources at
    hand ([apiV2], [apiV3], [apiPath], [internal/util], [internal]) and the
    library functions whose results depend on the outside world. *)
Record Env : Type := mkEnv {
  apiV2 : string;
  apiV3 : string;
  apiPath : string → string → string;
  path_Join : list string → string;
  util_ProgramsDate : Time → string;
  util_Datetime : Time → string;
  ioutil_ReadAll : trace → ReadCloser → outcome (string * option error);
  xml_Unmarshal : string → stationsData → stationsData * option error;
  internal_GetURIFromM3U8 : trace → ReadCloser → outcome (string * option error)
}.

Variable E : Env.

Definition c_newRequest (c : Client) (ctx : Ctx) (method endpoint : string)
    (params : Params) : M (option Request * option error) :=
  call (EvNewRequest ctx method endpoint params)
       (λ tr, newRequest c tr ctx method endpoint params).

Definition c_Do (c : Client) (req : option Request)
    : M (option Response * option error) :=
  call (EvDo req) (λ tr, Do c tr req).

Definition c_CallWithAuthTokenHeader (c : Client) (req : option Request)
    : M (option Response * option error) :=
  call (EvCallWithAuthTokenHeader req) (λ tr, CallWithAuthTokenHeader c tr req).

Definition Body_Close (r : ReadCloser) : M unit :=
  call (EvClose r) (λ _, Ret tt).

Definition ReadAll (r : ReadCloser) : M (string * option error) :=
  call (EvReadAll r) (λ tr, ioutil_ReadAll E tr r).

Definition GetURIFromM3U8 (r : ReadCloser) : M (string * option error) :=
  call (EvGetURIFromM3U8 r) (λ tr, internal_GetURIFromM3U8 E tr r).

(** [fmt.Sprintf("%s.xml", s)] *)
Definition Sprintf_xml (s : string) : string := String.append s ".xml".

(** ** Stations and programmes *)

(** [stations] returns the stations of the decoded response. *)
Definition stations (d : stationsData) : Stations :=
  XMLStations_Stations (XMLStations d).

(** [programs]: [d.XMLStations.Stations[0].Progs.Progs]. *)
Definition programs (d : stationsData) : M (list Prog) :=
  match XMLStations_Stations (XMLStations d) !! 0%nat with
  | Some s => ret (Progs_Progs (Station_Progs s))
  | None => panic "index out of range [0] with length 0"
  end.

(** [decodeStationsData] fills [*stations]; the filled value is returned
    next to the error. *)
Definition decodeStationsData (input : ReadCloser) (stations : stationsData)
    : M (stationsData * option error) :=
  '(b, err) ← ReadAll input;
  match err with
  | Some e => ret (stations, Some e)
  | None =>
      let '(stations', err) := xml_Unmarshal E b stations in
      match err with
      | Some e => ret (stations', Some e)
      | None => ret (stations', None)
      end
  end.

Definition GetProgramsByStation (c : Client) (ctx : Ctx) (stationId : string)
    (date : Time) : M (list Prog * option error) :=
  let apiEndpoint :=
    path_Join E [apiV3 E; "program/station/date"; util_ProgramsDate E date;
                 Sprintf_xml stationId] in
  '(req, err) ← c_newRequest c ctx "GET" apiEndpoint Params_empty;
  match err with
  | Some e => ret ([], Some e)
  | None =>
      '(resp, err) ← c_Do c req;
      match err with
      | Some e => ret ([], Some e)
      | None =>
          resp ← deref resp;
          defer (Body_Close (Body resp))
            ('(d, err) ← decodeStationsData (Body resp) stationsData_zero;
             match err with
             | Some e => ret ([], Some e)
             | None => progs ← programs d; ret (progs, None)
             end)
      end
  end.

(** The [for _, prog := range progs] loop of [FindProgramByStation] with the
    [return] that follows it. *)
Fixpoint FindProgramByStation_loop (target : Z) (progs : list Prog)
    : option Prog * option error :=
  match progs with
  | [] => (None, Some (ErrorsNew "CAN'T FIND THE PROGRAM"))
  | prog :: rest =>
      let '(from, err) := strconv.Atoi (Ft prog) in
      match err with
      | Some e => (None, Some e)
      | None =>
          let '(to, err) := strconv.Atoi (To prog) in
          match err with
          | Some e => (None, Some e)
          | None =>
              if ((from <=? target) && (target <? to))%Z then (Some prog, None)
              else FindProgramByStation_loop target rest
          end
      end
  end.

(** [FindProgramByStation] from the parse of the target on: the flat
    programme list is searched for the formatted instant [datetime]. *)
Definition FindProgramByStation_lookup (datetime : string) (progs : list Prog)
    : option Prog * option error :=
  let '(target, err) := strconv.Atoi datetime in
  match err with
  | Some e => (None, Some e)
  | None => FindProgramByStation_loop target progs
  end.

Definition FindProgramByStation (c : Client) (ctx : Ctx) (stationId : string)
    (date : Time) : M (option Prog * option error) :=
  '(progs, err) ← GetProgramsByStation c ctx stationId date;
  match err with
  | Some e => ret (None, Some e)
  | None => ret (FindProgramByStation_lookup (util_Datetime E date) progs)
  end.

(** [GetStations] returns the program's meta-info. *)
Definition GetStations (c : Client) (ctx : Ctx) (date : Time)
    : M (Stations * option error) :=
  let apiEndpoint :=
    path_Join E [apiV3 E; "program/date"; util_ProgramsDate E date;
                 Sprintf_xml (AreaID c)] in
  '(req, err) ← c_newRequest c ctx "GET" apiEndpoint Params_empty;
  match err with
  | Some e => ret ([], Some e)
  | None =>
      '(resp, err) ← c_Do c req;
      match err with
      | Some e => ret ([], Some e)
      | None =>
          resp ← deref resp;
          defer (Body_Close (Body resp))
            ('(d, err) ← decodeStationsData (Body resp) stationsData_zero;
             match err with
             | Some e => ret ([], Some e)
             | None => ret (stations d, None)
             end)
      end
  end.

(** The inner loop of [GetProgramByStartTime]: [prog = &p; break] on the
    first programme whose [Ft] is [ft]; [prog] is left as it was when there
    is none. *)
Fixpoint GetProgramByStartTime_progs (ft : string) (ps : list Prog)
    (prog : option Prog) : option Prog :=
  match ps with
  | [] => prog
  | p :: ps' =>
      if String.eqb (Ft p) ft then Some p
      else GetProgramByStartTime_progs ft ps' prog
  end.

(** The outer loop: it runs over every station of the snapshot. *)
Fixpoint GetProgramByStartTime_stations (stationID ft : string)
    (ss : list Station) (prog : option Prog) : option Prog :=
  match ss with
  | [] => prog
  | s :: ss' =>
      GetProgramByStartTime_stations stationID ft ss'
        (if String.eqb (Station_ID s) stationID
         then GetProgramByStartTime_progs ft (Progs_Progs (Station_Progs s)) prog
         else prog)
  end.

(** [GetProgramByStartTime] returns a specified program. *)
Definition GetProgramByStartTime (c : Client) (ctx : Ctx) (stationID : string)
    (start : Time) : M (option Prog * option error) :=
  if String.eqb stationID "" then ret (None, Some (ErrorsNew "StationID is empty"))
  else
    '(stations, err) ← GetStations c ctx start;
    match err with
    | Some e => ret (None, Some e)
    | None =>
        let ft := util_Datetime E start in
        match GetProgramByStartTime_stations stationID ft stations None with
        | None => ret (None, Some ErrProgramNotFound)
        | Some p => ret (Some p, None)
        end
    end.

(** ** timeshift.go *)

(** [TimeshiftPlaylistM3U8] returns uri. *)
Definition TimeshiftPlaylistM3U8 (c : Client) (ctx : Ctx) (stationID : string)
    (start : Time) : M (string * option error) :=
  '(prog, err) ← GetProgramByStartTime c ctx stationID start;
  match err with
  | Some e => ret ("", Some e)
  | None =>
      let apiEndpoint := apiPath E (apiV2 E) "ts/playlist.m3u8" in
      prog ← deref prog;
      '(req, _) ← c_newRequest c ctx "POST" apiEndpoint
                     (mkParams {[ "station_id" := stationID;
                                  "ft" := Ft prog;
                                  "to" := To prog;
                                  "l" := "15" ]});
      '(resp, err) ← c_CallWithAuthTokenHeader c req;
      match err with
      | Some e => ret ("", Some e)
      | None =>
          resp ← deref resp;
          defer (Body_Close (Body resp)) (GetURIFromM3U8 (Body resp))
      end
  end.

(** ** The other fetches of the programme file *)

(** [xml.Unmarshal] into a [*radioStationsData]. *)
Variable xml_Unmarshal_radioStations :
  string → radioStationsData → radioStationsData * option error.

Definition radioStations (d : radioStationsData) : RadioStations :=
  radioStationsData_RadioStations d.

Definition decodeRadioStationsData (input : ReadCloser)
    (stations : radioStationsData) : M (radioStationsData * option error) :=
  '(b, err) ← ReadAll input;
  match err with
  | Some e => ret (stations, Some e)
  | None =>
      let '(stations', err) := xml_Unmarshal_radioStations b stations in
      match err with
      | Some e => ret (stations', Some e)
      | None => ret (stations', None)
      end
  end.

Definition GetRadioStations (c : Client) (ctx : Ctx)
    : M (RadioStations * option error) :=
  let apiEndpoint :=
    path_Join E [apiV3 E; "station/list"; Sprintf_xml (AreaID c)] in
  '(req, err) ← c_newRequest c ctx "GET" apiEndpoint Params_empty;
  match err with
  | Some e => ret ([], Some e)
  | None =>
      '(resp, err) ← c_Do c req;
      match err with
      | Some e => ret ([], Some e)
      | None =>
          resp ← deref resp;
          defer (Body_Close (Body resp))
            ('(d, err) ← decodeRadioStationsData (Body resp) radioStationsData_zero;
             match err with
             | Some e => ret ([], Some e)
             | None => ret (radioStations d, None)
             end)
      end
  end.

(** [GetNowPrograms] returns the program's meta-info which are currently on
    the air. *)
Definition GetNowPrograms (c : Client) (ctx : Ctx)
    : M (Stations * option error) :=
  let apiEndpoint := apiPath E (apiV2 E) "program/now" in
  '(req, err) ← c_newRequest c ctx "GET" apiEndpoint
                  (mkParams {[ "area_id" := AreaID c ]});
  match err with
  | Some e => ret ([], Some e)
  | None =>
      '(resp, err) ← c_Do c req;
      match err with
      | Some e => ret ([], Some e)
      | None =>
          resp ← deref resp;
          defer (Body_Close (Body resp))
            ('(d, err) ← decodeStationsData (Body resp) stationsData_zero;
             match err with
             | Some e => ret ([], Some e)
             | None => ret (stations d, None)
             end)
      end
  end.

(** [GetWeeklyPrograms] returns the weekly programs. *)
Definition GetWeeklyPrograms (c : Client) (ctx : Ctx) (stationID : string)
    : M (Stations * option error) :=
  let apiEndpoint :=
    path_Join E [apiV3 E; "program/station/weekly"; Sprintf_xml stationID] in
  '(req, err) ← c_newRequest c ctx "GET" apiEndpoint Params_empty;
  match err with
  | Some e => ret ([], Some e)
  | None =>
      '(resp, err) ← c_Do c req;
      match err with
      | Some e => ret ([], Some e)
      | None =>
          resp ← deref resp;
          defer (Body_Close (Body resp))
            ('(d, err) ← decodeStationsData (Body resp) stationsData_zero;
             match err with
             | Some e => ret ([], Some e)
             | None => ret (stations d, None)
             end)
      end
  end.

(** ** Reading traces *)

(** What one fetch adds to the trace: its request is built; or built and
    sent; or built and sent, and the body of the response is read once and
    then closed. *)
Definition fetch_trace (ev : event) (rest : list event) : Prop :=
  rest = [ev]
  ∨ (∃ req, rest = [ev; EvDo req])
  ∨ (∃ req body, rest = [ev; EvDo req; EvReadAll body; EvClose body]).

(** What the playlist resolver adds to the trace: nothing; or what the
    schedule fetch adds; or a complete schedule fetch followed by the playlist
    request [post prog] of a programme alone, by it and the authenticated call,
    or by them and one extraction from the body of the answer, which is then
    closed. *)
Definition resolver_trace (get : event) (post : Prog → event)
    (rest : list event) : Prop :=
  rest = []
  ∨ fetch_trace get rest
  ∨ ∃ req0 body0 prog,
      rest = [get; EvDo req0; EvReadAll body0; EvClose body0; post prog]
      ∨ (∃ req,
           rest = [get; EvDo req0; EvReadAll body0; EvClose body0; post prog;
                   EvCallWithAuthTokenHeader req])
      ∨ (∃ req body,
           rest = [get; EvDo req0; EvReadAll body0; EvClose body0; post prog;
                   EvCallWithAuthTokenHeader req;
                   EvGetURIFromM3U8 body; EvClose body]).

(** [m] only appends to the trace. *)
Definition extends {A} (m : M A) : Prop :=
  ∀ tr, ∃ rest, snd (m tr) = tr ++ rest.

(** The first thing [m] does to the outside is [ev]. *)
Definition starts_with {A} (ev : event) (m : M A) : Prop :=
  ∀ tr, ∃ rest, snd (m tr) = tr ++ ev :: rest.

End Radiko.

(** ** Predicates of the statements *)

(** Both markers of [p] parse and the half-open interval [[Ft, To)] contains
    the instant [t]. *)
Definition covers (p : Prog) (t : Z) : Prop :=
  ∃ from to : Z,
    strconv.Atoi (Ft p) = (from, None) ∧ strconv.Atoi (To p) = (to, None) ∧
    (from ≤ t < to)%Z.

(** Both markers of [p] parse as integers. *)
Definition parses (p : Prog) : Prop :=
  ∃ from to : Z,
    strconv.Atoi (Ft p) = (from, None) ∧ strconv.Atoi (To p) = (to, None).

(** The data-model invariant: both markers parse and [Ft < To]. *)
Definition well_formed (p : Prog) : Prop :=
  ∃ from to : Z,
    strconv.Atoi (Ft p) = (from, None) ∧ strconv.Atoi (To p) = (to, None) ∧
    (from < to)%Z.

(** No instant lies in the intervals of two entries at different positions. *)
Definition non_overlapping (progs : list Prog) : Prop :=
  ∀ (i j : nat) (p q : Prog) (t : Z),
    i ≠ j → progs !! i = Some p → progs !! j = Some q →
    covers p t → ¬ covers q t.

(** A marker as the service writes it: fourteen decimal digits. *)
Definition timestamp (s : string) : Prop :=
  String.length s = 14%nat ∧ strconv.all_digits s = true.

(** The no-match result of the interval-containment lookup. *)
Definition not_found : option Prog * option error :=
  (None, Some (ErrorsNew "CAN'T FIND THE PROGRAM")).

(** The exact-start lookup as the specification words it: the first station
    whose identifier matches is searched for the first programme starting at
    [ft]. *)
Definition exact_start_spec (stationID ft : string) (ss : list Station)
    : option Prog :=
  match List.find (λ s, String.eqb (Station_ID s) stationID) ss with
  | Some s => List.find (λ p, String.eqb (Ft p) ft) (Progs_Progs (Station_Progs s))
  | None => None
  end.

(** What the two loops of [GetProgramByStartTime] compute on any snapshot:
    the last station that has the identifier and a programme starting at [ft]
    decides, with its first such programme. *)
Definition exact_start_last (stationID ft : string) (ss : list Station)
    : option Prog :=
  match List.find
          (λ s, String.eqb (Station_ID s) stationID &&
                existsb (λ p, String.eqb (Ft p) ft) (Progs_Progs (Station_Progs s)))
          (rev ss) with
  | Some s => List.find (λ p, String.eqb (Ft p) ft) (Progs_Progs (Station_Progs s))
  | None => None
  end.

(** ** A concrete client, for running the functions *)

Module Demo.

(** A programme given by its two markers. *)
Definition prog (ft to : string) (title : string) : Prog :=
  mkProg ft to "" "" "" title "" "" "" "" "".

Definition station (id : string) (ps : list Prog) : Station :=
  mkStation id id (mkScd (mkProgs "" [])) (mkProgs "" ps).

Definition data (ss : list Station) : stationsData :=
  mkStationsData (mk_xml_Name "" "radiko")
                 (mkXMLStations (mk_xml_Name "" "stations") ss).

(** Instants are given by their 14-digit rendering; contexts carry nothing;
    a request is its method and endpoint; a body is a number. *)
Definition env (ss : list Station) : @Env string unit (string * string) nat :=
  mkEnv "v2" "v3"
        (λ v p, String.append v (String.append "/api/" p))
        (λ l, String.concat "/" l)
        (λ t, String.substring 0 8 t)
        (λ t, t)
        (λ _ _, Ret ("<radiko/>", None))
        (λ _ _, (data ss, None))
        (λ _ _, Ret ("https://radiko.example/playlist.m3u8", None)).

Definition client : @Client unit (string * string) nat :=
  mkClient "JP13"
           (λ _ _ m e _, Ret (Some (m, e), None))
           (λ _ _, Ret (Some (mkResponse 1%nat), None))
           (λ _ _, Ret (Some (mkResponse 2%nat), None)).

(** A client whose request construction fails for [POST]. *)
Definition client_bad_post : @Client unit (string * string) nat :=
  mkClient "JP13"
           (λ _ _ m e _,
              if String.eqb m "POST"
              then Ret (None, Some (OtherError "request construction failed"))
              else Ret (Some (m, e), None))
           (λ _ _, Ret (Some (mkResponse 1%nat), None))
           (λ _ r, match r with
                   | Some _ => Ret (Some (mkResponse 2%nat), None)
                   | None => Ret (Some (mkResponse 3%nat), None)
                   end).

(** A client whose schedule fetch fails in transport. *)
Definition client_offline : @Client unit (string * string) nat :=
  mkClient "JP13"
           (λ _ _ m e _, Ret (Some (m, e), None))
           (λ _ _, Ret (None, Some (OtherError "dial tcp: i/o timeout")))
           (λ _ _, Ret (Some (mkResponse 2%nat), None)).

Definition p1 : Prog := prog "100" "200" "first".
Definition p2 : Prog := prog "200" "300" "second".
Definition scenarioB : list Prog := [p1; p2].

(** An entry whose start marker is not a number. *)
Definition garbled : Prog := prog "1x0" "200" "garbled".

Definition news : Prog := prog "20240101050000" "20240101060000" "news".
Definition music : Prog := prog "20240101050000" "20240101055500" "music".
Definition snapshotA : list Station := [station "JOAK" [news]].
Definition snapshot_dup : list Station :=
  [station "JOAK" [news]; station "JOAK" [music]].

(** A station list and its decoder. *)
Definition radio : RadioStations :=
  [mkRadioStation "JOAK" "NHK1"; mkRadioStation "TBS" "TBS RADIO"].

Definition unmarshal_radio (b : string) (d : radioStationsData)
    : radioStationsData * option error :=
  (mkRadioStationsData (mk_xml_Name "" "stations") radio, None).

(** A decoder that fills the stations and then reports an error, as
    [xml.Unmarshal] does on input that goes wrong after its first elements. *)
Definition env_partial (ss : list Station) : @Env string unit (string * string) nat :=
  mkEnv "v2" "v3"
        (λ v p, String.append v (String.append "/api/" p))
        (λ l, String.concat "/" l)
        (λ t, String.substring 0 8 t)
        (λ t, t)
        (λ _ _, Ret ("<radiko>", None))
        (λ _ _, (data ss, Some (OtherError "XML syntax error: unexpected EOF")))
        (λ _ _, Ret ("", Some (OtherError "invalid m3u8 format"))).

(** An environment whose playlist body has no URI. *)
Definition env_no_uri (ss : list Station) : @Env string unit (string * string) nat :=
  mkEnv "v2" "v3"
        (λ v p, String.append v (String.append "/api/" p))
        (λ l, String.concat "/" l)
        (λ t, String.substring 0 8 t)
        (λ t, t)
        (λ _ _, Ret ("<radiko/>", None))
        (λ _ _, (data ss, None))
        (λ _ _, Ret ("", Some (OtherError "invalid m3u8 format"))).

End Demo.

(** ** Facts about [strconv.Atoi] *)

Example Atoi_100 : strconv.Atoi "100" = (100%Z, None).
Proof. reflexivity. Qed.

Example Atoi_ts : strconv.Atoi "20240101050000" = (20240101050000%Z, None).
Proof. reflexivity. Qed.

Example Atoi_neg : strconv.Atoi "-42" = ((-42)%Z, None).
Proof. reflexivity. Qed.

Example Atoi_bad :
  strconv.Atoi "2024x" = (0%Z, Some (NumError "Atoi" "2024x" strconv.ErrSyntax)).
Proof. reflexivity. Qed.

Example Atoi_big :
  strconv.Atoi "99999999999999999999"
  = ((2 ^ 63 - 1)%Z, Some (NumError "Atoi" "99999999999999999999" strconv.ErrRange)).
Proof. vm_compute. reflexivity. Qed.

Example Atoi_big_then_bad :
  strconv.Atoi "999999999999999999999999x"
  = ((2 ^ 63 - 1)%Z, Some (NumError "Atoi" "999999999999999999999999x" strconv.ErrRange)).
Proof. vm_compute. reflexivity. Qed.

Section AtoiFacts.

Import strconv.

Lemma all_digits_empty_body (s : string) :
  (String.length s <? 1)%nat = false → String.eqb s "" = false.
Proof. destruct s; simpl; [discriminate | reflexivity]. Qed.

Lemma Atoi_loop_rejects (s : string) :
  ∀ n, all_digits s = false → Atoi_loop n s = None.
Proof.
  induction s as [| ch s IH]; intros n Hd; simpl in *; [discriminate |].
  destruct (is_digit ch); simpl in Hd; [apply IH, Hd | reflexivity].
Qed.

(** A character that is not a digit makes the slow path fail: with a syntax
    error when the scan reaches it, with a range error when the digits before
    it already overflow. *)
Lemma ParseUint_loop_rejects (s0 s : string) :
  ∀ n, all_digits s = false →
    ParseUint_loop s0 n s = (0%Z, Some (NumError "ParseUint" s0 ErrSyntax)) ∨
    ParseUint_loop s0 n s = (maxUint64, Some (NumError "ParseUint" s0 ErrRange)).
Proof.
  induction s as [| ch s IH]; intros n Hd; simpl in *; [discriminate |].
  destruct (is_digit ch); simpl in Hd; [| left; reflexivity].
  destruct (_ <=? n)%Z; [right; reflexivity |].
  destruct (maxUint64 <? _)%Z; [right; reflexivity |].
  apply IH, Hd.
Qed.

Lemma ParseUint_rejects (s : string) :
  negb (String.eqb s "") && all_digits s = false →
  ParseUint s = (0%Z, Some (NumError "ParseUint" s ErrSyntax)) ∨
  ParseUint s = (maxUint64, Some (NumError "ParseUint" s ErrRange)).
Proof.
  destruct s as [| ch s]; intros H; [left; reflexivity |].
  simpl in H. apply (ParseUint_loop_rejects (String ch s) (String ch s) 0 H).
Qed.

Lemma ParseInt_rejects (s : string) :
  numeric s = false → ∃ v e, ParseInt s = (v, Some (NumError "ParseInt" s e)).
Proof.
  destruct s as [| c rest]; intros H; [simpl; eauto |].
  unfold numeric in H. unfold ParseInt.
  destruct (ParseUint_rejects _ H) as [-> | ->].
  - simpl. eauto.
  - replace (decide (ErrRange = ErrRange)) with
      (left (ErrRange ≠ ErrRange) (eq_refl ErrRange)) by reflexivity.
    cbv beta iota zeta.
    destruct (Ascii.eqb c "-"); vm_compute; eauto.
Qed.

(** A string that is not an optionally signed run of digits is a parse
    error of [Atoi], reported for that very string. *)
Lemma Atoi_rejects (s : string) :
  numeric s = false → ∃ v e, Atoi s = (v, Some (NumError "Atoi" s e)).
Proof.
  intros H. unfold Atoi.
  destruct ((0 <? String.length s)%nat && (String.length s <? 19)%nat).
  - destruct s as [| c rest]; [eauto |].
    unfold numeric in H.
    destruct (String.length _ <? 1)%nat eqn:Hlen; [eauto |].
    rewrite (all_digits_empty_body _ Hlen) in H. simpl in H.
    rewrite (Atoi_loop_rejects _ 0 H). eauto.
  - destruct (ParseInt_rejects s H) as (v & e & ->). eauto.
Qed.

Lemma ParseUint_loop_error (s0 s : string) :
  ∀ n v e, ParseUint_loop s0 n s = (v, Some e) →
    ∃ k, e = NumError "ParseUint" s0 k.
Proof.
  induction s as [| ch s IH]; intros n v e; simpl; [discriminate |].
  destruct (is_digit ch); [| intros [= <- <-]; eauto].
  destruct (_ <=? n)%Z; [intros [= <- <-]; eauto |].
  destruct (maxUint64 <? _)%Z; [intros [= <- <-]; eauto |].
  apply IH.
Qed.

Lemma ParseUint_error (s : string) (v : Z) (e : error) :
  ParseUint s = (v, Some e) → ∃ k, e = NumError "ParseUint" s k.
Proof.
  destruct s as [| ch s]; [intros [= <- <-]; eauto |].
  apply ParseUint_loop_error.
Qed.

Lemma ParseInt_error (s : string) (v : Z) (e : error) :
  ParseInt s = (v, Some e) → ∃ k, e = NumError "ParseInt" s k.
Proof.
  unfold ParseInt. destruct s as [| c rest]; [intros [= <- <-]; eauto |].
  destruct (ParseUint _) as [un [err |]] eqn:HU.
  - destruct (ParseUint_error _ _ _ HU) as [k ->].
    destruct (decide (k = ErrRange)); [| intros [= <- <-]; eauto].
    destruct (negb _ && _); [intros [= <- <-]; eauto |].
    destruct (_ && _); [intros [= <- <-]; eauto | discriminate].
  - destruct (negb _ && _); [intros [= <- <-]; eauto |].
    destruct (_ && _); [intros [= <- <-]; eauto | discriminate].
Qed.

(** Every error of [Atoi] is a [*NumError] of [Atoi] for the string it was
    given. *)
Lemma Atoi_error (s : string) (v : Z) (e : error) :
  Atoi s = (v, Some e) → ∃ k, e = NumError "Atoi" s k.
Proof.
  unfold Atoi.
  destruct ((0 <? String.length s)%nat && (String.length s <? 19)%nat).
  - destruct s as [| c rest]; [intros [= <- <-]; eauto |].
    destruct (String.length _ <? 1)%nat; [intros [= <- <-]; eauto |].
    destruct (Atoi_loop _ _); [discriminate | intros [= <- <-]; eauto].
  - destruct (ParseInt s) as [i64 [err |]] eqn:HP; [| discriminate].
    destruct (ParseInt_error _ _ _ HP) as [k ->].
    intros [= <- <-]; eauto.
Qed.

End AtoiFacts.

(** ** Interval-containment lookup *)

Section Containment.

Lemma covers_parses (p : Prog) (t : Z) : covers p t → parses p.
Proof. intros (f & e & Hf & He & _). exists f, e. auto. Qed.

Lemma well_formed_parses (p : Prog) : well_formed p → parses p.
Proof. intros (f & e & Hf & He & _). exists f, e. auto. Qed.

(** An entry whose interval contains the target ends the scan. *)
Lemma loop_hit (t : Z) (p : Prog) (rest : list Prog) :
  covers p t → FindProgramByStation_loop t (p :: rest) = (Some p, None).
Proof.
  intros (f & e & Hf & He & Hlo & Hhi). simpl. rewrite Hf, He.
  destruct (Z.leb_spec f t); [| lia].
  destruct (Z.ltb_spec t e); [reflexivity | lia].
Qed.

(** A parsed entry whose interval does not contain the target is passed. *)
Lemma loop_skip (t : Z) (p : Prog) (rest : list Prog) :
  parses p → ¬ covers p t →
  FindProgramByStation_loop t (p :: rest) = FindProgramByStation_loop t rest.
Proof.
  intros (f & e & Hf & He) Hn. simpl. rewrite Hf, He.
  destruct (Z.leb_spec f t); [| reflexivity].
  destruct (Z.ltb_spec t e); [| reflexivity].
  exfalso. apply Hn. exists f, e. auto.
Qed.

Lemma covers_or_not (t : Z) (p : Prog) : parses p → covers p t ∨ ¬ covers p t.
Proof.
  intros (f & e & Hf & He).
  destruct (Z_le_dec f t) as [Hlo | Hlo]; [destruct (Z_lt_dec t e) as [Hhi | Hhi] |].
  - left. exists f, e. auto.
  - right. intros (f' & e' & Hf' & He' & H). rewrite He in He'. injection He' as <-. lia.
  - right. intros (f' & e' & Hf' & He' & H). rewrite Hf in Hf'. injection Hf' as <-. lia.
Qed.

Lemma loop_first_match (t : Z) (l1 : list Prog) (p : Prog) (l2 : list Prog) :
  Forall parses l1 → Forall (λ q, ¬ covers q t) l1 → covers p t →
  FindProgramByStation_loop t (l1 ++ p :: l2) = (Some p, None).
Proof.
  induction l1 as [| q l1 IH]; intros Hp Hn Hc.
  - apply loop_hit, Hc.
  - inversion Hp; inversion Hn; subst.
    rewrite <- app_comm_cons, loop_skip by assumption. auto.
Qed.

Lemma loop_no_match (t : Z) (progs : list Prog) :
  Forall parses progs → Forall (λ q, ¬ covers q t) progs →
  FindProgramByStation_loop t progs = not_found.
Proof.
  induction progs as [| q progs IH]; intros Hp Hn; [reflexivity |].
  inversion Hp; inversion Hn; subst. rewrite loop_skip by assumption. auto.
Qed.

(** The scan of a list whose entries all parse. *)
Lemma loop_parsed (t : Z) (progs : list Prog) :
  Forall parses progs →
  (∃ l1 p l2, progs = l1 ++ p :: l2 ∧ covers p t ∧
              Forall (λ q, ¬ covers q t) l1 ∧
              FindProgramByStation_loop t progs = (Some p, None))
  ∨ (Forall (λ q, ¬ covers q t) progs ∧
     FindProgramByStation_loop t progs = not_found).
Proof.
  induction progs as [| q progs IH]; intros Hp.
  - right. split; [constructor | reflexivity].
  - inversion Hp as [| ? ? Hq Hrest]; subst.
    destruct (covers_or_not t q Hq) as [Hc | Hc].
    + left. exists [], q, progs. repeat split; auto using loop_hit.
    + rewrite loop_skip by assumption.
      destruct (IH Hrest) as [(l1 & p & l2 & -> & Hcp & Hl1 & Hr) | [Hall Hr]].
      * left. exists (q :: l1), p, l2. repeat split; auto.
      * right. split; auto.
Qed.

Lemma lookup_parsed (datetime : string) (t : Z) (progs : list Prog) :
  strconv.Atoi datetime = (t, None) →
  FindProgramByStation_lookup datetime progs = FindProgramByStation_loop t progs.
Proof. intros H. unfold FindProgramByStation_lookup. rewrite H. reflexivity. Qed.

(** C3: on a flat list whose markers all parse, and for a target that
    parses, the lookup returns exactly the first entry in listed order with
    [Ft <= target < To], and the "program not found" error exactly when no
    entry contains the target; on [[{100,200}; {200,300}]] the target 150
    gives the first entry, 200 the second and 300 not-found. *)
Theorem FindProgramByStation_first_containing :
  (∀ (datetime : string) (t : Z) (progs : list Prog),
     strconv.Atoi datetime = (t, None) → Forall parses progs →
     (∀ p, FindProgramByStation_lookup datetime progs = (Some p, None) ↔
           ∃ l1 l2, progs = l1 ++ p :: l2 ∧ covers p t ∧
                    Forall (λ q, ¬ covers q t) l1) ∧
     (FindProgramByStation_lookup datetime progs = not_found ↔
      Forall (λ q, ¬ covers q t) progs))
  ∧ FindProgramByStation_lookup "150" Demo.scenarioB = (Some Demo.p1, None)
  ∧ FindProgramByStation_lookup "200" Demo.scenarioB = (Some Demo.p2, None)
  ∧ FindProgramByStation_lookup "300" Demo.scenarioB = not_found.
Proof.
  split; [| repeat split; reflexivity].
  intros datetime t progs Ht Hp. rewrite (lookup_parsed _ _ _ Ht).
  split; [intros p; split |split].
  - intros Hr.
    destruct (loop_parsed t progs Hp) as [(l1 & p' & l2 & -> & Hc & Hl1 & Hr') | [_ Hr']];
      rewrite Hr' in Hr; [| discriminate].
    injection Hr as ->. eauto.
  - intros (l1 & l2 & -> & Hc & Hl1).
    apply loop_first_match; auto.
    apply Forall_app in Hp. tauto.
  - intros Hr.
    destruct (loop_parsed t progs Hp) as [(l1 & p' & l2 & -> & Hc & Hl1 & Hr') | [Hall _]];
      [rewrite Hr' in Hr; discriminate | exact Hall].
  - apply loop_no_match; assumption.
Qed.

(** C4: on a list of well-formed, pairwise non-overlapping entries, the
    lookup returns the entry whose interval contains the target, that entry
    is the only one in the list containing it, and the lookup is not-found
    for a target outside all intervals. *)
Theorem FindProgramByStation_unique_containing
    (datetime : string) (t : Z) (progs : list Prog) :
  strconv.Atoi datetime = (t, None) →
  Forall well_formed progs →
  non_overlapping progs →
  (∀ i p, progs !! i = Some p → covers p t →
     FindProgramByStation_lookup datetime progs = (Some p, None) ∧
     ∀ j q, progs !! j = Some q → covers q t → j = i)
  ∧ ((∀ p, p ∈ progs → ¬ covers p t) →
     FindProgramByStation_lookup datetime progs = not_found).
Proof.
  intros Ht Hwf Hno. rewrite (lookup_parsed _ _ _ Ht).
  assert (Hp : Forall parses progs)
    by (eapply Forall_impl; [exact Hwf | apply well_formed_parses]).
  split.
  - intros i p Hi Hc. split.
    + rewrite <- (take_drop_middle progs i p Hi).
      apply loop_first_match; [apply Forall_take, Hp | | exact Hc].
      apply Forall_lookup. intros j q Hj.
      assert (j < i)%nat as Hlt.
      { apply lookup_lt_Some in Hj. rewrite length_take in Hj. lia. }
      rewrite lookup_take_lt in Hj by exact Hlt.
      intros Hq. apply (Hno j i q p t); auto. lia.
    + intros j q Hj Hq. destruct (decide (j = i)) as [| Hne]; [assumption |].
      exfalso. apply (Hno j i q p t); auto.
  - intros Hnone. apply loop_no_match; [exact Hp |].
    apply Forall_forall. intros q Hq. apply Hnone, Hq.
Qed.

(** The scan up to and including an entry with a malformed marker, when no
    entry before it contains the target. *)
Lemma loop_malformed (t : Z) (l1 : list Prog) (bad : Prog) (l2 : list Prog) :
  Forall (λ q, ¬ covers q t) l1 →
  strconv.numeric (Ft bad) = false ∨ strconv.numeric (To bad) = false →
  ∃ s k, FindProgramByStation_loop t (l1 ++ bad :: l2)
         = (None, Some (NumError "Atoi" s k)) ∧
         (Forall parses l1 → s = Ft bad ∨ s = To bad).
Proof.
  intros Hn Hbad. induction l1 as [| q l1 IH]; simpl.
  - destruct (strconv.Atoi (Ft bad)) as [f [e |]] eqn:Hf.
    + destruct (Atoi_error _ _ _ Hf) as [k ->]. eauto.
    + destruct Hbad as [Hb | Hb].
      * destruct (Atoi_rejects _ Hb) as (v & k & Hk). congruence.
      * destruct (Atoi_rejects _ Hb) as (v & k & ->). eauto.
  - inversion Hn as [| ? ? Hq Hrest]; subst.
    destruct (strconv.Atoi (Ft q)) as [f [e |]] eqn:Hf.
    { destruct (Atoi_error _ _ _ Hf) as [k ->].
      exists (Ft q), k. split; [reflexivity |].
      intros Hp. inversion Hp as [| ? ? (f' & e' & Hf' & _) _]; congruence. }
    destruct (strconv.Atoi (To q)) as [e [e0 |]] eqn:He.
    { destruct (Atoi_error _ _ _ He) as [k ->].
      exists (To q), k. split; [reflexivity |].
      intros Hp. inversion Hp as [| ? ? (f' & e' & _ & He') _]; congruence. }
    destruct (Z.leb_spec f t); destruct (Z.ltb_spec t e); simpl.
    1: { exfalso. apply Hq. exists f, e. auto. }
    all: destruct (IH Hrest) as (s & k & Hr & Hs); exists s, k;
      (split; [exact Hr |]); intros Hp; inversion Hp; auto.
Qed.

(** C5: an entry with a non-numeric [Ft] or [To] that is reached before any
    entry containing the target makes the lookup fail with a parse error,
    whatever follows it in the list; when the entries before it parse, the
    error is reported for that entry's own marker.  A non-numeric target
    fails with the parse error of the target for every list. *)
Theorem FindProgramByStation_parse_error_first :
  (∀ (datetime : string) (t : Z) (l1 : list Prog) (bad : Prog) (l2 : list Prog),
     strconv.Atoi datetime = (t, None) →
     Forall (λ q, ¬ covers q t) l1 →
     strconv.numeric (Ft bad) = false ∨ strconv.numeric (To bad) = false →
     ∃ s k, FindProgramByStation_lookup datetime (l1 ++ bad :: l2)
            = (None, Some (NumError "Atoi" s k)) ∧
            (Forall parses l1 → s = Ft bad ∨ s = To bad))
  ∧ (∀ datetime : string,
       strconv.numeric datetime = false →
       ∃ k, ∀ progs : list Prog,
         FindProgramByStation_lookup datetime progs
         = (None, Some (NumError "Atoi" datetime k))).
Proof.
  split.
  - intros datetime t l1 bad l2 Ht Hn Hbad.
    rewrite (lookup_parsed _ _ _ Ht). apply loop_malformed; assumption.
  - intros datetime Hd.
    destruct (Atoi_rejects _ Hd) as (v & k & Hk).
    exists k. intros progs. unfold FindProgramByStation_lookup.
    rewrite Hk. reflexivity.
Qed.

End Containment.

(** ** Traces only grow *)

Section Traces.

Context {Time Ctx Request ReadCloser : Type}.
#[local] Abbreviation M := (@M Ctx Request ReadCloser).
#[local] Abbreviation event := (@event Ctx Request ReadCloser).

Lemma extends_ret {A} (a : A) : extends (ret a : M A).
Proof. intros tr. exists []. simpl. by rewrite app_nil_r. Qed.

Lemma extends_panic {A} (msg : string) : extends (panic msg : M A).
Proof. intros tr. exists []. simpl. by rewrite app_nil_r. Qed.

Lemma extends_call {A} (ev : event) (f : list event → outcome A) :
  extends (call ev f).
Proof. intros tr. exists [ev]. reflexivity. Qed.

Lemma extends_deref {A} (p : option A) : extends (deref p : M A).
Proof. destruct p; [apply extends_ret | apply extends_panic]. Qed.

Lemma extends_bind {A B} (m : M A) (k : A → M B) :
  extends m → (∀ a, extends (k a)) → extends (bind m k).
Proof.
  intros Hm Hk tr. unfold bind. destruct (Hm tr) as [r1 H1].
  destruct (m tr) as [[a | msg] tr1]; simpl in H1; subst tr1.
  - destruct (Hk a (tr ++ r1)) as [r2 H2]. exists (r1 ++ r2).
    by rewrite H2, app_assoc.
  - by exists r1.
Qed.

Lemma extends_defer {A} (f : M unit) (body : M A) :
  extends f → extends body → extends (defer f body).
Proof.
  intros Hf Hb tr. unfold defer. destruct (Hb tr) as [r1 H1].
  destruct (body tr) as [r tr1]; simpl in H1; subst tr1.
  destruct (Hf (tr ++ r1)) as [r2 H2].
  destruct (f (tr ++ r1)) as [[u | msg] tr2]; simpl in H2; subst tr2;
    exists (r1 ++ r2); by rewrite app_assoc.
Qed.

Lemma starts_with_call {A} (ev : event) (f : list event → outcome A) :
  starts_with ev (call ev f).
Proof. intros tr. exists []. reflexivity. Qed.

Lemma starts_with_bind {A B} (ev : event) (m : M A) (k : A → M B) :
  starts_with ev m → (∀ a, extends (k a)) → starts_with ev (bind m k).
Proof.
  intros Hm Hk tr. unfold bind. destruct (Hm tr) as [r1 H1].
  destruct (m tr) as [[a | msg] tr1]; simpl in H1; subst tr1.
  - destruct (Hk a (tr ++ ev :: r1)) as [r2 H2]. exists (r1 ++ r2).
    rewrite H2, <- app_assoc. reflexivity.
  - by exists r1.
Qed.

End Traces.

Ltac unfold_bind := unfold mbind, M_bind in *.

(** Trace growth of a function body, by its structure. *)
Ltac extends :=
  unfold_bind;
  repeat first
    [ apply extends_ret | apply extends_panic | apply extends_call
    | apply extends_deref | apply extends_bind | apply extends_defer
    | progress intros
    | match goal with
      | |- extends (match ?x with _ => _ end) => destruct x
      end ].

Section Flow.

Context {Time Ctx Request ReadCloser : Type}.
Variable E : @Env Time Ctx Request ReadCloser.
Variable c : @Client Ctx Request ReadCloser.

Lemma extends_decodeStationsData (input : ReadCloser) (d : stationsData) :
  extends (decodeStationsData E input d).
Proof. unfold decodeStationsData, ReadAll. extends. Qed.

Lemma extends_programs (d : stationsData) :
  extends (programs d : @M Ctx Request ReadCloser (list Prog)).
Proof. unfold programs. extends. Qed.

Lemma extends_GetStations (ctx : Ctx) (date : Time) :
  extends (GetStations E c ctx date).
Proof.
  unfold GetStations, c_newRequest, c_Do, Body_Close. extends.
Qed.

(** The schedule fetch begins by building its [GET] request. *)
Lemma starts_with_GetStations (ctx : Ctx) (date : Time) :
  starts_with
    (EvNewRequest ctx "GET"
       (path_Join E [apiV3 E; "program/date"; util_ProgramsDate E date;
                     Sprintf_xml (AreaID c)]) Params_empty)
    (GetStations E c ctx date).
Proof.
  unfold GetStations, c_newRequest, c_Do, Body_Close. unfold_bind.
  apply starts_with_bind; [apply starts_with_call |].
  extends.
Qed.

Lemma extends_GetProgramsByStation (ctx : Ctx) (stationId : string) (date : Time) :
  extends (GetProgramsByStation E c ctx stationId date).
Proof.
  unfold GetProgramsByStation, c_newRequest, c_Do, Body_Close. extends.
  apply extends_programs.
Qed.

Lemma extends_GetProgramByStartTime (ctx : Ctx) (stationID : string) (start : Time) :
  extends (GetProgramByStartTime E c ctx stationID start).
Proof.
  unfold GetProgramByStartTime. destruct (String.eqb stationID ""); extends.
Qed.

Lemma extends_TimeshiftPlaylistM3U8 (ctx : Ctx) (stationID : string) (start : Time) :
  extends (TimeshiftPlaylistM3U8 E c ctx stationID start).
Proof.
  unfold TimeshiftPlaylistM3U8, c_newRequest, c_CallWithAuthTokenHeader,
    Body_Close, GetURIFromM3U8.
  extends. apply extends_GetProgramByStartTime.
Qed.

(** *** Exact-start lookup *)

Lemma GetProgramByStartTime_empty (ctx : Ctx) (start : Time) (tr : list event) :
  GetProgramByStartTime E c ctx "" start tr
  = (Ret (None, Some (ErrorsNew "StationID is empty")), tr).
Proof. reflexivity. Qed.

Lemma GetProgramByStartTime_fetched (ctx : Ctx) (stationID : string)
    (start : Time) (tr tr' : list event) (ss : Stations) :
  stationID ≠ "" →
  GetStations E c ctx start tr = (Ret (ss, None), tr') →
  GetProgramByStartTime E c ctx stationID start tr
  = (Ret (match GetProgramByStartTime_stations stationID (util_Datetime E start)
                  ss None with
          | None => (None, Some ErrProgramNotFound)
          | Some p => (Some p, None)
          end), tr').
Proof.
  intros Hid HS. unfold GetProgramByStartTime.
  apply String.eqb_neq in Hid. rewrite Hid.
  unfold_bind. unfold bind. rewrite HS.
  destruct (GetProgramByStartTime_stations _ _ _ _); reflexivity.
Qed.

Lemma GetProgramByStartTime_fetch_failed (ctx : Ctx) (stationID : string)
    (start : Time) (tr tr' : list event) (ss : Stations) (e : error) :
  stationID ≠ "" →
  GetStations E c ctx start tr = (Ret (ss, Some e), tr') →
  GetProgramByStartTime E c ctx stationID start tr = (Ret (None, Some e), tr').
Proof.
  intros Hid HS. unfold GetProgramByStartTime.
  apply String.eqb_neq in Hid. rewrite Hid.
  unfold_bind. unfold bind. rewrite HS. reflexivity.
Qed.

(** The inner loop is a search for the first programme starting at [ft]. *)
Lemma GetProgramByStartTime_progs_find (ft : string) (ps : list Prog)
    (prog : option Prog) :
  GetProgramByStartTime_progs ft ps prog
  = match List.find (λ p, String.eqb (Ft p) ft) ps with
    | Some p => Some p
    | None => prog
    end.
Proof.
  induction ps as [| p ps IH]; simpl; [reflexivity |].
  destruct (String.eqb (Ft p) ft); [reflexivity | exact IH].
Qed.

(** Stations with another identifier leave [prog] as it is. *)
Lemma GetProgramByStartTime_stations_other (stationID ft : string)
    (ss : list Station) (prog : option Prog) :
  (∀ s, s ∈ ss → Station_ID s ≠ stationID) →
  GetProgramByStartTime_stations stationID ft ss prog = prog.
Proof.
  revert prog. induction ss as [| s ss IH]; intros prog H; simpl; [reflexivity |].
  assert (Hs : String.eqb (Station_ID s) stationID = false)
    by (apply String.eqb_neq, H; left).
  rewrite Hs. apply IH. intros s' Hs'. apply H. by right.
Qed.

(** Stations that have the identifier but no programme starting at [ft]
    leave [prog] as it is, too. *)
Lemma GetProgramByStartTime_stations_no_start (stationID ft : string)
    (ss : list Station) (prog : option Prog) :
  (∀ s, s ∈ ss → Station_ID s = stationID →
        ∀ p, p ∈ Progs_Progs (Station_Progs s) → Ft p ≠ ft) →
  GetProgramByStartTime_stations stationID ft ss prog = prog.
Proof.
  revert prog. induction ss as [| s ss IH]; intros prog H; simpl; [reflexivity |].
  rewrite IH by (intros s' Hs'; apply H; by right).
  destruct (String.eqb_spec (Station_ID s) stationID) as [Hid | Hid]; [| reflexivity].
  rewrite GetProgramByStartTime_progs_find.
  destruct (List.find _ _) as [p |] eqn:Hf; [| reflexivity].
  apply List.find_some in Hf as [Hin Heq]. apply String.eqb_eq in Heq.
  exfalso. apply (H s (list_elem_of_here _ _) Hid p); [| exact Heq].
  apply list_elem_of_In, Hin.
Qed.

(** When station identifiers do not repeat in the snapshot, the two loops
    compute what the specification words. *)
Lemma GetProgramByStartTime_stations_unique (stationID ft : string)
    (ss : list Station) :
  NoDup (Station_ID <$> ss) →
  GetProgramByStartTime_stations stationID ft ss None
  = exact_start_spec stationID ft ss.
Proof.
  unfold exact_start_spec.
  induction ss as [| s ss IH]; intros Hnd; [reflexivity |].
  rewrite fmap_cons in Hnd. apply NoDup_cons in Hnd as [Hout Hnd].
  cbn [GetProgramByStartTime_stations List.find].
  destruct (String.eqb_spec (Station_ID s) stationID) as [Hid | Hid].
  - rewrite GetProgramByStartTime_stations_other.
    + rewrite GetProgramByStartTime_progs_find.
      destruct (List.find _ (Progs_Progs _)); reflexivity.
    + intros s' Hs' Heq. apply Hout. rewrite Hid, <- Heq.
      apply list_elem_of_fmap. eauto.
  - apply IH, Hnd.
Qed.

Lemma find_app_one {A} (P : A → bool) (l : list A) (x : A) :
  List.find P (l ++ [x])
  = match List.find P l with
    | Some y => Some y
    | None => if P x then Some x else None
    end.
Proof.
  induction l as [| y l IH]; simpl; [reflexivity |].
  destruct (P y); [reflexivity | exact IH].
Qed.

Lemma existsb_as_find {A} (P : A → bool) (l : list A) :
  existsb P l = match List.find P l with Some _ => true | None => false end.
Proof.
  induction l as [| y l IH]; simpl; [reflexivity |].
  destruct (P y); [reflexivity | exact IH].
Qed.

Lemma GetProgramByStartTime_stations_rev (stationID ft : string)
    (ss : list Station) (prog : option Prog) :
  GetProgramByStartTime_stations stationID ft ss prog
  = match List.find
            (λ s, String.eqb (Station_ID s) stationID &&
                  existsb (λ p, String.eqb (Ft p) ft)
                          (Progs_Progs (Station_Progs s)))
            (rev ss) with
    | Some s => List.find (λ p, String.eqb (Ft p) ft)
                          (Progs_Progs (Station_Progs s))
    | None => prog
    end.
Proof.
  revert prog. induction ss as [| s ss IH]; intros prog; [reflexivity |].
  cbn [GetProgramByStartTime_stations rev]. rewrite IH, find_app_one.
  destruct (List.find _ (rev ss)); [reflexivity |].
  destruct (String.eqb (Station_ID s) stationID); cbn [andb]; [| reflexivity].
  rewrite GetProgramByStartTime_progs_find, existsb_as_find.
  destruct (List.find _ (Progs_Progs _)) eqn:Hf; cbv beta iota;
    [symmetry; exact Hf | reflexivity].
Qed.

(** On every snapshot the loops return the first programme starting at
    [ft] of the last station that has the identifier and such a
    programme. *)
Lemma GetProgramByStartTime_stations_last (stationID ft : string)
    (ss : list Station) :
  GetProgramByStartTime_stations stationID ft ss None
  = exact_start_last stationID ft ss.
Proof. apply GetProgramByStartTime_stations_rev. Qed.

(** C10: with a non-empty identifier and a fetched snapshot, the exact-start
    lookup returns the same value, [ErrProgramNotFound] with no programme,
    when no station of the snapshot has the identifier and when stations have
    it but none of their programmes starts at the formatted instant. *)
Theorem GetProgramByStartTime_not_found_same_error
    (ctx : Ctx) (stationID : string) (start : Time) (tr tr' : list event)
    (ss : Stations) :
  stationID ≠ "" →
  GetStations E c ctx start tr = (Ret (ss, None), tr') →
  ((∀ s, s ∈ ss → Station_ID s ≠ stationID) →
   GetProgramByStartTime E c ctx stationID start tr
   = (Ret (None, Some ErrProgramNotFound), tr'))
  ∧ ((∃ s, s ∈ ss ∧ Station_ID s = stationID) →
     (∀ s, s ∈ ss → Station_ID s = stationID →
           ∀ p, p ∈ Progs_Progs (Station_Progs s) → Ft p ≠ util_Datetime E start) →
     GetProgramByStartTime E c ctx stationID start tr
     = (Ret (None, Some ErrProgramNotFound), tr')).
Proof.
  intros Hid HS. rewrite (GetProgramByStartTime_fetched _ _ _ _ _ _ Hid HS).
  split.
  - intros Hno. by rewrite GetProgramByStartTime_stations_other.
  - intros _ Hno. by rewrite GetProgramByStartTime_stations_no_start.
Qed.

(** *** Playlist resolver *)

(** C7: with an empty station identifier the resolver returns the parameter
    error and leaves the trace as it was: no request is built and no call is
    made.  With a non-empty identifier the first thing it does is build the
    request of the schedule fetch; so anything added to the trace means the
    identifier was not empty. *)
Theorem TimeshiftPlaylistM3U8_empty_station
    (ctx : Ctx) (start : Time) (tr : list event) :
  TimeshiftPlaylistM3U8 E c ctx "" start tr
  = (Ret ("", Some (ErrorsNew "StationID is empty")), tr)
  ∧ (∀ stationID, stationID ≠ "" →
       ∃ rest, snd (TimeshiftPlaylistM3U8 E c ctx stationID start tr)
               = tr ++ EvNewRequest ctx "GET" (path_Join E [apiV3 E; "program/date"; util_ProgramsDate E start;
                                   Sprintf_xml (AreaID c)]) Params_empty
                    :: rest)
  ∧ (∀ stationID,
       snd (TimeshiftPlaylistM3U8 E c ctx stationID start tr) ≠ tr →
       stationID ≠ "").
Proof.
  split; [reflexivity | split].
  - intros stationID Hid.
    assert (Hstart : starts_with
              (EvNewRequest ctx "GET" (path_Join E [apiV3 E; "program/date"; util_ProgramsDate E start;
                                   Sprintf_xml (AreaID c)]) Params_empty)
              (TimeshiftPlaylistM3U8 E c ctx stationID start)).
    { unfold TimeshiftPlaylistM3U8, GetProgramByStartTime.
      apply String.eqb_neq in Hid. rewrite Hid. unfold_bind.
      apply starts_with_bind.
      - apply starts_with_bind; [apply starts_with_GetStations | extends].
      - unfold c_newRequest, c_CallWithAuthTokenHeader, Body_Close, GetURIFromM3U8.
        extends. }
    apply Hstart.
  - intros stationID Hne ->. apply Hne. reflexivity.
Qed.

(** C8: after a successful programme lookup the next thing the resolver does
    is build the [POST] request to the playlist endpoint, with a query that
    maps [station_id] to the given identifier, [ft] and [to] to the matched
    programme's markers, [l] to ["15"], and nothing else. *)
Theorem TimeshiftPlaylistM3U8_request_params
    (ctx : Ctx) (stationID : string) (start : Time) (tr tr1 : list event)
    (prog : Prog) :
  GetProgramByStartTime E c ctx stationID start tr = (Ret (Some prog, None), tr1) →
  ∃ (params : Params) (rest : list event),
    snd (TimeshiftPlaylistM3U8 E c ctx stationID start tr)
    = tr1 ++ EvNewRequest ctx "POST" (apiPath E (apiV2 E) "ts/playlist.m3u8") params
          :: rest
    ∧ query params !! "station_id" = Some stationID
    ∧ query params !! "ft" = Some (Ft prog)
    ∧ query params !! "to" = Some (To prog)
    ∧ query params !! "l" = Some "15"
    ∧ ∀ k, k ∉ ["station_id"; "ft"; "to"; "l"] → query params !! k = None.
Proof.
  intros HP. exists (mkParams ({[ "station_id" := stationID; "ft" := Ft prog; "to" := To prog;
                   "l" := "15" ]})).
  assert (Hrest : ∃ rest,
    snd (TimeshiftPlaylistM3U8 E c ctx stationID start tr)
    = tr1 ++ EvNewRequest ctx "POST" (apiPath E (apiV2 E) "ts/playlist.m3u8")
               (mkParams ({[ "station_id" := stationID; "ft" := Ft prog; "to" := To prog;
                   "l" := "15" ]})) :: rest).
  { unfold TimeshiftPlaylistM3U8. unfold_bind. unfold bind at 1. rewrite HP.
    unfold deref, ret, bind at 1.
    apply (starts_with_bind _ (c_newRequest c ctx "POST" _ _));
      [apply starts_with_call |].
    unfold c_CallWithAuthTokenHeader, Body_Close, GetURIFromM3U8. extends. }
  destruct Hrest as [rest Hrest]. exists rest.
  split; [exact Hrest |]. cbn [query].
  repeat split; try by simplify_map_eq.
  intros k Hk.
  rewrite !lookup_insert_ne, lookup_singleton_ne; [done | ..];
    intros <-; apply Hk; set_solver.
Qed.

(** The resolver returns a failed programme lookup as it is, and does
    nothing more. *)
Lemma TimeshiftPlaylistM3U8_lookup_error
    (ctx : Ctx) (stationID : string) (start : Time) (tr tr1 : list event)
    (p : option Prog) (e : error) :
  GetProgramByStartTime E c ctx stationID start tr = (Ret (p, Some e), tr1) →
  TimeshiftPlaylistM3U8 E c ctx stationID start tr = (Ret ("", Some e), tr1).
Proof.
  intros HP. unfold TimeshiftPlaylistM3U8. unfold_bind. unfold bind at 1.
  rewrite HP. reflexivity.
Qed.

(** A failed schedule fetch is returned as it is; the trace is the one of
    the fetch, so the playlist request is neither built nor sent. *)
Lemma TimeshiftPlaylistM3U8_fetch_error
    (ctx : Ctx) (stationID : string) (start : Time) (tr tr1 : list event)
    (ss : Stations) (e : error) :
  stationID ≠ "" →
  GetStations E c ctx start tr = (Ret (ss, Some e), tr1) →
  TimeshiftPlaylistM3U8 E c ctx stationID start tr = (Ret ("", Some e), tr1).
Proof.
  intros Hid HS. eapply TimeshiftPlaylistM3U8_lookup_error.
  eapply GetProgramByStartTime_fetch_failed; eassumption.
Qed.

(** A failed authenticated call is returned as it is; the body is not
    read. *)
Lemma TimeshiftPlaylistM3U8_call_error
    (ctx : Ctx) (stationID : string) (start : Time) (tr tr1 : list event)
    (prog : Prog) (req : option Request) (err0 : option error)
    (resp : option Response) (e : error) :
  let ev := EvNewRequest ctx "POST" (apiPath E (apiV2 E) "ts/playlist.m3u8")
              (mkParams {[ "station_id" := stationID; "ft" := Ft prog;
                           "to" := To prog; "l" := "15" ]}) in
  GetProgramByStartTime E c ctx stationID start tr = (Ret (Some prog, None), tr1) →
  newRequest c tr1 ctx "POST" (apiPath E (apiV2 E) "ts/playlist.m3u8")
    (mkParams {[ "station_id" := stationID; "ft" := Ft prog;
                 "to" := To prog; "l" := "15" ]}) = Ret (req, err0) →
  CallWithAuthTokenHeader c (tr1 ++ [ev]) req = Ret (resp, Some e) →
  TimeshiftPlaylistM3U8 E c ctx stationID start tr
  = (Ret ("", Some e), tr1 ++ [ev; EvCallWithAuthTokenHeader req]).
Proof.
  intros ev HP HN HC. unfold TimeshiftPlaylistM3U8. unfold_bind.
  unfold bind at 1. rewrite HP.
  unfold deref, ret, bind, c_newRequest, c_CallWithAuthTokenHeader, call.
  rewrite HN. fold ev. rewrite HC.
  rewrite <- app_assoc. reflexivity.
Qed.

(** The error of building the playlist request is dropped: whatever
    [newRequest] returns next to its error is handed to the authenticated
    call, which is the next entry of the trace. *)
Lemma TimeshiftPlaylistM3U8_request_error_dropped
    (ctx : Ctx) (stationID : string) (start : Time) (tr tr1 : list event)
    (prog : Prog) (req : option Request) (e : error) :
  let ev := EvNewRequest ctx "POST" (apiPath E (apiV2 E) "ts/playlist.m3u8")
              (mkParams {[ "station_id" := stationID; "ft" := Ft prog;
                           "to" := To prog; "l" := "15" ]}) in
  GetProgramByStartTime E c ctx stationID start tr = (Ret (Some prog, None), tr1) →
  newRequest c tr1 ctx "POST" (apiPath E (apiV2 E) "ts/playlist.m3u8")
    (mkParams {[ "station_id" := stationID; "ft" := Ft prog;
                 "to" := To prog; "l" := "15" ]}) = Ret (req, Some e) →
  ∃ rest, snd (TimeshiftPlaylistM3U8 E c ctx stationID start tr)
          = tr1 ++ ev :: EvCallWithAuthTokenHeader req :: rest.
Proof.
  intros ev HP HN. unfold TimeshiftPlaylistM3U8. unfold_bind.
  unfold bind at 1. rewrite HP.
  unfold deref, ret, bind at 1.
  unfold c_newRequest, call, bind at 1. rewrite HN. fold ev.
  match goal with
  | |- ∃ rest, snd (?m ?t) = _ =>
      assert (Hs : starts_with (EvCallWithAuthTokenHeader req) m)
  end.
  { apply starts_with_bind; [apply starts_with_call |].
    unfold Body_Close, GetURIFromM3U8. extends. }
  destruct (Hs (tr1 ++ [ev])) as [rest Hrest]. exists rest.
  rewrite Hrest, <- app_assoc. reflexivity.
Qed.

(** *** Schedule of one station *)

(** C9: when the request is built, the round trip succeeds and the body
    decodes without error into a response with no station, then
    [GetProgramsByStation] does not return: indexing the first station
    panics (after which the deferred close of the body runs); the caller
    [FindProgramByStation] panics with it. *)
Theorem GetProgramsByStation_panics_without_station
    (ctx : Ctx) (stationId : string) (date : Time) (tr tr3 : list event)
    (req : option Request) (resp : Response) (d : stationsData) :
  let ev := EvNewRequest ctx "GET"
              (path_Join E [apiV3 E; "program/station/date";
                            util_ProgramsDate E date; Sprintf_xml stationId])
              Params_empty in
  newRequest c tr ctx "GET"
    (path_Join E [apiV3 E; "program/station/date";
                  util_ProgramsDate E date; Sprintf_xml stationId])
    Params_empty = Ret (req, None) →
  Do c (tr ++ [ev]) req = Ret (Some resp, None) →
  decodeStationsData E (Body resp) stationsData_zero (tr ++ [ev] ++ [EvDo req])
  = (Ret (d, None), tr3) →
  stations d = [] →
  GetProgramsByStation E c ctx stationId date tr
  = (Panic "index out of range [0] with length 0", tr3 ++ [EvClose (Body resp)])
  ∧ FindProgramByStation E c ctx stationId date tr
    = (Panic "index out of range [0] with length 0", tr3 ++ [EvClose (Body resp)]).
Proof.
  intros ev HN HD Hdec Hs.
  assert (HG : GetProgramsByStation E c ctx stationId date tr
               = (Panic "index out of range [0] with length 0",
                  tr3 ++ [EvClose (Body resp)])).
  { unfold GetProgramsByStation. unfold_bind.
    unfold bind at 1. unfold c_newRequest, call. rewrite HN. fold ev.
    unfold bind at 1. unfold c_Do, call. rewrite HD.
    unfold deref, ret, bind at 1. unfold defer.
    unfold bind at 1. rewrite app_assoc in Hdec. rewrite Hdec.
    unfold programs. unfold stations in Hs. rewrite Hs.
    reflexivity. }
  split; [exact HG |].
  unfold FindProgramByStation. unfold_bind. unfold bind. rewrite HG.
  reflexivity.
Qed.

End Flow.

(** ** The functions at concrete inputs *)

Section Runs.

(** C1: on a snapshot with two stations of the same identifier, each with a
    programme starting at the target, the specification's reading picks the
    programme of the first station, and [GetProgramByStartTime] returns the
    programme of the second one: the [break] leaves the inner loop only, and
    the later station overwrites the earlier match. *)
Theorem GetProgramByStartTime_duplicate_station_last_wins :
  exact_start_spec "JOAK" "20240101050000" Demo.snapshot_dup = Some Demo.news
  ∧ GetProgramByStartTime (Demo.env Demo.snapshot_dup) Demo.client tt
      "JOAK" "20240101050000" []
    = (Ret (Some Demo.music, None),
       [EvNewRequest tt "GET" "v3/program/date/20240101/JP13.xml" Params_empty;
        EvDo (Some ("GET", "v3/program/date/20240101/JP13.xml"));
        EvReadAll 1%nat; EvClose 1%nat])
  ∧ Demo.music ≠ Demo.news.
Proof.
  split; [vm_compute; reflexivity |].
  split; [vm_compute; reflexivity |].
  intros H. vm_compute in H. discriminate H.
Qed.

(** C2: with a client whose [newRequest] fails for the playlist request,
    the resolver does not return that error: it goes on to the authenticated
    call with the [nil] request, reads the body of the answer and returns
    its URI with a [nil] error. *)
Theorem TimeshiftPlaylistM3U8_request_error_not_returned :
  newRequest Demo.client_bad_post
    [EvNewRequest tt "GET" "v3/program/date/20240101/JP13.xml" Params_empty;
     EvDo (Some ("GET", "v3/program/date/20240101/JP13.xml"));
     EvReadAll 1%nat; EvClose 1%nat]
    tt "POST" "v2/api/ts/playlist.m3u8"
    (mkParams {[ "station_id" := "JOAK"; "ft" := "20240101050000";
                 "to" := "20240101060000"; "l" := "15" ]})
  = Ret (None, Some (OtherError "request construction failed"))
  ∧ TimeshiftPlaylistM3U8 (Demo.env Demo.snapshotA) Demo.client_bad_post tt
      "JOAK" "20240101050000" []
    = (Ret ("https://radiko.example/playlist.m3u8", None),
       [EvNewRequest tt "GET" "v3/program/date/20240101/JP13.xml" Params_empty;
        EvDo (Some ("GET", "v3/program/date/20240101/JP13.xml"));
        EvReadAll 1%nat; EvClose 1%nat;
        EvNewRequest tt "POST" "v2/api/ts/playlist.m3u8"
          (mkParams {[ "station_id" := "JOAK"; "ft" := "20240101050000";
                       "to" := "20240101060000"; "l" := "15" ]});
        EvCallWithAuthTokenHeader None;
        EvGetURIFromM3U8 3%nat; EvClose 3%nat]).
Proof. split; vm_compute; reflexivity. Qed.

(** Scenario C: a transport error of the schedule fetch is what the resolver
    returns, and the trace ends with the failed round trip. *)
Example TimeshiftPlaylistM3U8_offline :
  TimeshiftPlaylistM3U8 (Demo.env Demo.snapshotA) Demo.client_offline tt
    "JOAK" "20240101050000" []
  = (Ret ("", Some (OtherError "dial tcp: i/o timeout")),
     [EvNewRequest tt "GET" "v3/program/date/20240101/JP13.xml" Params_empty;
      EvDo (Some ("GET", "v3/program/date/20240101/JP13.xml"))]).
Proof. vm_compute. reflexivity. Qed.

(** Scenario A. *)
Example GetProgramByStartTime_scenarioA :
  fst (GetProgramByStartTime (Demo.env Demo.snapshotA) Demo.client tt
         "JOAK" "20240101050000" []) = Ret (Some Demo.news, None)
  ∧ fst (GetProgramByStartTime (Demo.env Demo.snapshotA) Demo.client tt
           "JOAK" "20240101050001" []) = Ret (None, Some ErrProgramNotFound).
Proof. split; vm_compute; reflexivity. Qed.

(** C6: the two lookups report "no match" with different error values.  The
    exact-start lookup returns the package's named [ErrProgramNotFound]; the
    interval-containment lookup returns a value made on the spot by
    [errors.New], which is not [ErrProgramNotFound]. *)
Theorem FindProgramByStation_not_found_is_unnamed :
  fst (FindProgramByStation (Demo.env [Demo.station "JOAK" Demo.scenarioB])
         Demo.client tt "JOAK" "300" [])
  = Ret (None, Some (ErrorsNew "CAN'T FIND THE PROGRAM"))
  ∧ fst (GetProgramByStartTime (Demo.env Demo.snapshotA) Demo.client tt
           "JOAK" "20240101050001" [])
    = Ret (None, Some ErrProgramNotFound)
  ∧ ErrorsNew "CAN'T FIND THE PROGRAM" ≠ ErrProgramNotFound.
Proof.
  split; [vm_compute; reflexivity |].
  split; [vm_compute; reflexivity |].
  intros H. vm_compute in H. discriminate H.
Qed.

End Runs.

(** ** The general statements at concrete inputs *)

Section Instances.

Lemma Atoi_150 : strconv.Atoi "150" = (150%Z, None).
Proof. reflexivity. Qed.

Lemma scenarioB_parses : Forall parses Demo.scenarioB.
Proof.
  repeat constructor.
  - exists 100%Z, 200%Z. split; reflexivity.
  - exists 200%Z, 300%Z. split; reflexivity.
Qed.

Lemma scenarioB_well_formed : Forall well_formed Demo.scenarioB.
Proof.
  repeat constructor.
  - exists 100%Z, 200%Z. repeat split; reflexivity.
  - exists 200%Z, 300%Z. repeat split; reflexivity.
Qed.

Lemma covers_p1 (t : Z) : covers Demo.p1 t → (100 ≤ t < 200)%Z.
Proof.
  intros (f & e & Hf & He & H). vm_compute in Hf, He.
  injection Hf as <-. injection He as <-. exact H.
Qed.

Lemma covers_p2 (t : Z) : covers Demo.p2 t → (200 ≤ t < 300)%Z.
Proof.
  intros (f & e & Hf & He & H). vm_compute in Hf, He.
  injection Hf as <-. injection He as <-. exact H.
Qed.

Lemma scenarioB_non_overlapping : non_overlapping Demo.scenarioB.
Proof.
  intros i j p q t Hne Hi Hj Hp Hq.
  destruct i as [| [| i]], j as [| [| j]]; simpl in Hi, Hj;
    try discriminate; try congruence;
    injection Hi as <-; injection Hj as <-;
    pose proof (covers_p1 t); pose proof (covers_p2 t); intuition lia.
Qed.

Lemma FindProgramByStation_first_containing_witness :
  strconv.Atoi "150" = (150%Z, None) ∧ Forall parses Demo.scenarioB ∧
  ((∀ p, FindProgramByStation_lookup "150" Demo.scenarioB = (Some p, None) ↔
         ∃ l1 l2, Demo.scenarioB = l1 ++ p :: l2 ∧ covers p 150 ∧
                  Forall (λ q, ¬ covers q 150) l1) ∧
   (FindProgramByStation_lookup "150" Demo.scenarioB = not_found ↔
    Forall (λ q, ¬ covers q 150) Demo.scenarioB)).
Proof.
  exact (conj Atoi_150 (conj scenarioB_parses
           (proj1 FindProgramByStation_first_containing "150" 150%Z
                  Demo.scenarioB Atoi_150 scenarioB_parses))).
Defined.

Lemma FindProgramByStation_unique_containing_witness :
  strconv.Atoi "150" = (150%Z, None) ∧ Forall well_formed Demo.scenarioB ∧
  non_overlapping Demo.scenarioB ∧
  ((∀ i p, Demo.scenarioB !! i = Some p → covers p 150 →
      FindProgramByStation_lookup "150" Demo.scenarioB = (Some p, None) ∧
      ∀ j q, Demo.scenarioB !! j = Some q → covers q 150 → j = i)
   ∧ ((∀ p, p ∈ Demo.scenarioB → ¬ covers p 150) →
      FindProgramByStation_lookup "150" Demo.scenarioB = not_found)).
Proof.
  exact (conj Atoi_150 (conj scenarioB_well_formed (conj scenarioB_non_overlapping
           (FindProgramByStation_unique_containing "150" 150%Z Demo.scenarioB
              Atoi_150 scenarioB_well_formed scenarioB_non_overlapping)))).
Defined.

Lemma p2_not_covers_150 : Forall (λ q, ¬ covers q 150) [Demo.p2].
Proof. apply Forall_singleton. intros H. apply covers_p2 in H. lia. Qed.

Lemma garbled_not_numeric :
  strconv.numeric (Ft Demo.garbled) = false ∨
  strconv.numeric (To Demo.garbled) = false.
Proof. left. reflexivity. Qed.

(** The malformed entry stands between a passed entry and an entry that
    contains the target. *)
Lemma FindProgramByStation_parse_error_first_witness :
  strconv.Atoi "150" = (150%Z, None) ∧
  Forall (λ q, ¬ covers q 150) [Demo.p2] ∧
  (strconv.numeric (Ft Demo.garbled) = false ∨
   strconv.numeric (To Demo.garbled) = false) ∧
  ∃ s k, FindProgramByStation_lookup "150" ([Demo.p2] ++ Demo.garbled :: [Demo.p1])
         = (None, Some (NumError "Atoi" s k)) ∧
         (Forall parses [Demo.p2] → s = Ft Demo.garbled ∨ s = To Demo.garbled).
Proof.
  exact (conj Atoi_150 (conj p2_not_covers_150 (conj garbled_not_numeric
           (proj1 FindProgramByStation_parse_error_first "150" 150%Z
                  [Demo.p2] Demo.garbled [Demo.p1]
                  Atoi_150 p2_not_covers_150 garbled_not_numeric)))).
Defined.

Example FindProgramByStation_garbled :
  FindProgramByStation_lookup "150" [Demo.p2; Demo.garbled; Demo.p1]
  = (None, Some (NumError "Atoi" "1x0" strconv.ErrSyntax))
  ∧ FindProgramByStation_lookup "15o" Demo.scenarioB
    = (None, Some (NumError "Atoi" "15o" strconv.ErrSyntax)).
Proof. split; reflexivity. Qed.

Lemma JOAK_not_empty : "JOAK" ≠ "".
Proof. discriminate. Qed.

Lemma TimeshiftPlaylistM3U8_empty_station_witness :
  "JOAK" ≠ "" ∧
  ∃ rest,
    snd (TimeshiftPlaylistM3U8 (Demo.env Demo.snapshotA) Demo.client tt
           "JOAK" "20240101050000" [])
    = [] ++ EvNewRequest tt "GET" "v3/program/date/20240101/JP13.xml" Params_empty
         :: rest.
Proof.
  exact (conj JOAK_not_empty
           (proj1 (proj2 (TimeshiftPlaylistM3U8_empty_station
                            (Demo.env Demo.snapshotA) Demo.client tt
                            "20240101050000" []))
                  "JOAK" JOAK_not_empty)).
Defined.

Lemma GetStations_snapshotA (start : string) :
  String.substring 0 8 start = "20240101" →
  GetStations (Demo.env Demo.snapshotA) Demo.client tt start []
  = (Ret (Demo.snapshotA, None),
     [EvNewRequest tt "GET" "v3/program/date/20240101/JP13.xml" Params_empty;
      EvDo (Some ("GET", "v3/program/date/20240101/JP13.xml"));
      EvReadAll 1%nat; EvClose 1%nat]).
Proof.
  intros H. unfold GetStations. cbn [util_ProgramsDate Demo.env]. rewrite H.
  vm_compute. reflexivity.
Qed.

Lemma GetProgramByStartTime_snapshotA :
  GetProgramByStartTime (Demo.env Demo.snapshotA) Demo.client tt
    "JOAK" "20240101050000" []
  = (Ret (Some Demo.news, None),
     [EvNewRequest tt "GET" "v3/program/date/20240101/JP13.xml" Params_empty;
      EvDo (Some ("GET", "v3/program/date/20240101/JP13.xml"));
      EvReadAll 1%nat; EvClose 1%nat]).
Proof. vm_compute. reflexivity. Qed.

Lemma TimeshiftPlaylistM3U8_request_params_witness :
  GetProgramByStartTime (Demo.env Demo.snapshotA) Demo.client tt
    "JOAK" "20240101050000" []
  = (Ret (Some Demo.news, None),
     [EvNewRequest tt "GET" "v3/program/date/20240101/JP13.xml" Params_empty;
      EvDo (Some ("GET", "v3/program/date/20240101/JP13.xml"));
      EvReadAll 1%nat; EvClose 1%nat])
  ∧ ∃ (params : Params) (rest : list event),
      snd (TimeshiftPlaylistM3U8 (Demo.env Demo.snapshotA) Demo.client tt
             "JOAK" "20240101050000" [])
      = [EvNewRequest tt "GET" "v3/program/date/20240101/JP13.xml" Params_empty;
         EvDo (Some ("GET", "v3/program/date/20240101/JP13.xml"));
         EvReadAll 1%nat; EvClose 1%nat]
        ++ EvNewRequest tt "POST" "v2/api/ts/playlist.m3u8" params :: rest
      ∧ query params !! "station_id" = Some "JOAK"
      ∧ query params !! "ft" = Some "20240101050000"
      ∧ query params !! "to" = Some "20240101060000"
      ∧ query params !! "l" = Some "15"
      ∧ ∀ k, k ∉ ["station_id"; "ft"; "to"; "l"] → query params !! k = None.
Proof.
  exact (conj GetProgramByStartTime_snapshotA
           (TimeshiftPlaylistM3U8_request_params
              (Demo.env Demo.snapshotA) Demo.client tt "JOAK" "20240101050000"
              [] _ Demo.news GetProgramByStartTime_snapshotA)).
Defined.

Lemma decode_no_station :
  decodeStationsData (Demo.env []) 1%nat stationsData_zero
    ([] ++ [EvNewRequest tt "GET" "v3/program/station/date/20240101/JOAK.xml"
              Params_empty]
        ++ [EvDo (Some ("GET", "v3/program/station/date/20240101/JOAK.xml"))])
  = (Ret (Demo.data [], None),
     [EvNewRequest tt "GET" "v3/program/station/date/20240101/JOAK.xml"
        Params_empty;
      EvDo (Some ("GET", "v3/program/station/date/20240101/JOAK.xml"));
      EvReadAll 1%nat]).
Proof. vm_compute. reflexivity. Qed.

Lemma GetProgramsByStation_panics_without_station_witness :
  newRequest Demo.client [] tt "GET" "v3/program/station/date/20240101/JOAK.xml"
    Params_empty
  = Ret (Some ("GET", "v3/program/station/date/20240101/JOAK.xml"), None)
  ∧ stations (Demo.data []) = []
  ∧ GetProgramsByStation (Demo.env []) Demo.client tt "JOAK" "20240101053000" []
    = (Panic "index out of range [0] with length 0",
       [EvNewRequest tt "GET" "v3/program/station/date/20240101/JOAK.xml"
          Params_empty;
        EvDo (Some ("GET", "v3/program/station/date/20240101/JOAK.xml"));
        EvReadAll 1%nat] ++ [EvClose 1%nat])
  ∧ FindProgramByStation (Demo.env []) Demo.client tt "JOAK" "20240101053000" []
    = (Panic "index out of range [0] with length 0",
       [EvNewRequest tt "GET" "v3/program/station/date/20240101/JOAK.xml"
          Params_empty;
        EvDo (Some ("GET", "v3/program/station/date/20240101/JOAK.xml"));
        EvReadAll 1%nat] ++ [EvClose 1%nat]).
Proof.
  exact (conj eq_refl (conj eq_refl
           (GetProgramsByStation_panics_without_station
              (Demo.env []) Demo.client tt "JOAK" "20240101053000" [] _
              (Some ("GET", "v3/program/station/date/20240101/JOAK.xml"))
              (mkResponse 1%nat) (Demo.data [])
              eq_refl eq_refl decode_no_station eq_refl))).
Defined.

Lemma snapshotA_no_TBS : ∀ s, s ∈ Demo.snapshotA → Station_ID s ≠ "TBS".
Proof. intros s Hs. apply list_elem_of_singleton in Hs as ->. discriminate. Qed.

Lemma snapshotA_has_JOAK : ∃ s, s ∈ Demo.snapshotA ∧ Station_ID s = "JOAK".
Proof. eexists. split; [apply list_elem_of_here | reflexivity]. Qed.

Lemma snapshotA_no_start_0501 :
  ∀ s, s ∈ Demo.snapshotA → Station_ID s = "JOAK" →
       ∀ p, p ∈ Progs_Progs (Station_Progs s) →
            Ft p ≠ util_Datetime (Demo.env Demo.snapshotA) "20240101050001".
Proof.
  intros s Hs _ p Hp. apply list_elem_of_singleton in Hs as ->.
  apply list_elem_of_singleton in Hp as ->. discriminate.
Qed.

Lemma TBS_not_empty : "TBS" ≠ "".
Proof. discriminate. Qed.

(** No station ["TBS"] in the snapshot, and a station ["JOAK"] with nothing
    starting at 05:00:01: the same result. *)
Lemma GetProgramByStartTime_not_found_same_error_witness :
  "TBS" ≠ "" ∧
  GetStations (Demo.env Demo.snapshotA) Demo.client tt "20240101050001" []
  = (Ret (Demo.snapshotA, None),
     [EvNewRequest tt "GET" "v3/program/date/20240101/JP13.xml" Params_empty;
      EvDo (Some ("GET", "v3/program/date/20240101/JP13.xml"));
      EvReadAll 1%nat; EvClose 1%nat])
  ∧ (∀ s, s ∈ Demo.snapshotA → Station_ID s ≠ "TBS")
  ∧ GetProgramByStartTime (Demo.env Demo.snapshotA) Demo.client tt
      "TBS" "20240101050001" []
    = (Ret (None, Some ErrProgramNotFound),
       [EvNewRequest tt "GET" "v3/program/date/20240101/JP13.xml" Params_empty;
        EvDo (Some ("GET", "v3/program/date/20240101/JP13.xml"));
        EvReadAll 1%nat; EvClose 1%nat])
  ∧ GetProgramByStartTime (Demo.env Demo.snapshotA) Demo.client tt
      "JOAK" "20240101050001" []
    = (Ret (None, Some ErrProgramNotFound),
       [EvNewRequest tt "GET" "v3/program/date/20240101/JP13.xml" Params_empty;
        EvDo (Some ("GET", "v3/program/date/20240101/JP13.xml"));
        EvReadAll 1%nat; EvClose 1%nat]).
Proof.
  exact (conj TBS_not_empty
        (conj (GetStations_snapshotA "20240101050001" eq_refl)
        (conj snapshotA_no_TBS
        (conj
           (proj1 (GetProgramByStartTime_not_found_same_error
                     (Demo.env Demo.snapshotA) Demo.client tt "TBS"
                     "20240101050001" [] _ Demo.snapshotA TBS_not_empty
                     (GetStations_snapshotA "20240101050001" eq_refl))
                  snapshotA_no_TBS)
           (proj2 (GetProgramByStartTime_not_found_same_error
                     (Demo.env Demo.snapshotA) Demo.client tt "JOAK"
                     "20240101050001" [] _ Demo.snapshotA JOAK_not_empty
                     (GetStations_snapshotA "20240101050001" eq_refl))
                  snapshotA_has_JOAK snapshotA_no_start_0501))))).
Defined.

End Instances.


(** ** More on the interval-containment lookup *)

Section ContainmentCases.

(** How the scan of any list ends: at the first entry containing the
    target, at the end of the list, or at the first entry with a marker that
    does not parse; every entry before that point parsed and did not contain
    the target. *)
Lemma loop_cases (t : Z) (progs : list Prog) :
  (∃ l1 p l2, progs = l1 ++ p :: l2 ∧ Forall parses l1 ∧
              Forall (λ q, ¬ covers q t) l1 ∧ covers p t ∧
              FindProgramByStation_loop t progs = (Some p, None))
  ∨ (Forall parses progs ∧ Forall (λ q, ¬ covers q t) progs ∧
     FindProgramByStation_loop t progs = not_found)
  ∨ (∃ l1 q l2 s k, progs = l1 ++ q :: l2 ∧ Forall parses l1 ∧
                    Forall (λ q, ¬ covers q t) l1 ∧ ¬ parses q ∧
                    (s = Ft q ∨ s = To q) ∧
                    FindProgramByStation_loop t progs
                    = (None, Some (NumError "Atoi" s k))).
Proof.
  induction progs as [| q progs IH].
  - right; left. repeat split; constructor.
  - destruct (strconv.Atoi (Ft q)) as [f [e |]] eqn:Hf.
    { destruct (Atoi_error _ _ _ Hf) as [k ->].
      right; right. exists [], q, progs, (Ft q), k.
      split; [reflexivity |]. split; [constructor |]. split; [constructor |].
      split; [intros (f' & e' & Hf' & _); congruence |].
      split; [left; reflexivity |].
      cbn [FindProgramByStation_loop]. rewrite Hf. reflexivity. }
    destruct (strconv.Atoi (To q)) as [e [e0 |]] eqn:He.
    { destruct (Atoi_error _ _ _ He) as [k ->].
      right; right. exists [], q, progs, (To q), k.
      split; [reflexivity |]. split; [constructor |]. split; [constructor |].
      split; [intros (f' & e' & _ & He'); congruence |].
      split; [right; reflexivity |].
      cbn [FindProgramByStation_loop]. rewrite Hf, He. reflexivity. }
    assert (Hq : parses q) by (exists f, e; auto).
    destruct (covers_or_not t q Hq) as [Hc | Hc].
    + left. exists [], q, progs. repeat split; try constructor; auto using loop_hit.
    + rewrite loop_skip by assumption.
      destruct IH as [(l1 & p & l2 & -> & Hp & Hn & Hcp & Hr)
                     | [(Hp & Hn & Hr)
                       | (l1 & q' & l2 & s & k & -> & Hp & Hn & Hbad & Hs & Hr)]].
      * left. exists (q :: l1), p, l2. repeat split; auto.
      * right; left. repeat split; auto.
      * right; right. exists (q :: l1), q', l2, s, k. repeat split; auto.
Qed.

(** X1: Whatever the list holds, a programme returned by the lookup contains the
    target, and every entry listed before it parsed and did not contain the
    target. *)
Theorem FindProgramByStation_lookup_sound
    (datetime : string) (progs : list Prog) (p : Prog) :
  FindProgramByStation_lookup datetime progs = (Some p, None) →
  ∃ t l1 l2, strconv.Atoi datetime = (t, None) ∧ progs = l1 ++ p :: l2 ∧
             covers p t ∧ Forall parses l1 ∧ Forall (λ q, ¬ covers q t) l1.
Proof.
  unfold FindProgramByStation_lookup.
  destruct (strconv.Atoi datetime) as [t [e |]] eqn:Ht; [discriminate |].
  intros Hr. exists t.
  destruct (loop_cases t progs)
    as [(l1 & p' & l2 & -> & Hp & Hn & Hcp & Hr')
       | [(_ & _ & Hr') | (l1 & q' & l2 & s & k & _ & _ & _ & _ & _ & Hr')]];
    rewrite Hr' in Hr; try discriminate.
  injection Hr as ->. exists l1, l2. auto.
Qed.

(** X2: The lookup answers "not found" exactly when the target parses, every
    entry of the list parses, and no entry contains the target. *)
Theorem FindProgramByStation_lookup_not_found_iff
    (datetime : string) (progs : list Prog) :
  FindProgramByStation_lookup datetime progs = not_found ↔
  ∃ t, strconv.Atoi datetime = (t, None) ∧ Forall parses progs ∧
       Forall (λ q, ¬ covers q t) progs.
Proof.
  unfold FindProgramByStation_lookup. split.
  - destruct (strconv.Atoi datetime) as [t [e |]] eqn:Ht.
    { destruct (Atoi_error _ _ _ Ht) as [k ->]. discriminate. }
    intros Hr. exists t. split; [reflexivity |].
    destruct (loop_cases t progs)
      as [(l1 & p' & l2 & _ & _ & _ & _ & Hr')
         | [(Hp & Hn & _) | (l1 & q' & l2 & s & k & _ & _ & _ & _ & _ & Hr')]];
      [rewrite Hr' in Hr; discriminate | auto | rewrite Hr' in Hr; discriminate].
  - intros (t & -> & Hp & Hn). apply loop_no_match; assumption.
Qed.

(** X3: Every result of the lookup is of one of three kinds: a programme of the
    list with a nil error; no programme and the "not found" value; or no
    programme and a [*strconv.NumError] of [Atoi] for the target or for a
    marker of an entry of the list. *)
Theorem FindProgramByStation_lookup_results
    (datetime : string) (progs : list Prog) :
  (∃ p, p ∈ progs ∧ FindProgramByStation_lookup datetime progs = (Some p, None))
  ∨ FindProgramByStation_lookup datetime progs = not_found
  ∨ (∃ s k, FindProgramByStation_lookup datetime progs
            = (None, Some (NumError "Atoi" s k)) ∧
            (s = datetime ∨ ∃ q, q ∈ progs ∧ (s = Ft q ∨ s = To q))).
Proof.
  unfold FindProgramByStation_lookup.
  destruct (strconv.Atoi datetime) as [t [e |]] eqn:Ht.
  { destruct (Atoi_error _ _ _ Ht) as [k ->]. right; right. eauto. }
  destruct (loop_cases t progs)
    as [(l1 & p & l2 & -> & _ & _ & _ & Hr)
       | [(_ & _ & Hr) | (l1 & q & l2 & s & k & -> & _ & _ & _ & Hs & Hr)]].
  - left. exists p. split; [| exact Hr].
    apply elem_of_app. right. apply list_elem_of_here.
  - right; left. exact Hr.
  - right; right. exists s, k. split; [exact Hr |]. right. exists q.
    split; [| exact Hs]. apply elem_of_app. right. apply list_elem_of_here.
Qed.

Lemma is_digit_not_sign (c : ascii) :
  strconv.is_digit c = true → strconv.is_sign c = false.
Proof.
  destruct c as [[] [] [] [] [] [] [] []]; vm_compute; congruence.
Qed.

Lemma Atoi_loop_accepts (s : string) :
  ∀ n, strconv.all_digits s = true → ∃ v, strconv.Atoi_loop n s = Some v.
Proof.
  induction s as [| ch s IH]; intros n Hd; simpl in *; [eauto |].
  destruct (strconv.is_digit ch); [| discriminate]. apply IH, Hd.
Qed.

(** A run of one to eighteen digits parses. *)
Lemma Atoi_accepts_digits (s : string) :
  strconv.all_digits s = true →
  (0 < String.length s < 19)%nat →
  ∃ v, strconv.Atoi s = (v, None).
Proof.
  intros Hd [Hlo Hhi]. unfold strconv.Atoi.
  apply Nat.ltb_lt in Hlo, Hhi. rewrite Hlo, Hhi. cbn [andb].
  destruct s as [| c rest]; [discriminate |].
  assert (Hc : strconv.is_digit c = true).
  { simpl in Hd. destruct (strconv.is_digit c); [reflexivity | discriminate]. }
  pose proof (is_digit_not_sign c Hc) as Hs. rewrite Hs.
  cbn [String.length Nat.ltb Nat.leb].
  destruct (Atoi_loop_accepts (String c rest) 0 Hd) as [v ->].
  unfold strconv.is_sign in Hs. apply orb_false_iff in Hs as [_ ->]. eauto.
Qed.

Lemma timestamp_parses (p : Prog) :
  timestamp (Ft p) → timestamp (To p) → parses p.
Proof.
  intros [Lf Df] [Lt Dt].
  destruct (Atoi_accepts_digits (Ft p) Df) as [f Hf]; [rewrite Lf; lia |].
  destruct (Atoi_accepts_digits (To p) Dt) as [e He]; [rewrite Lt; lia |].
  exists f, e. auto.
Qed.

(** X4: On data as the service writes it, fourteen-digit markers and a
    fourteen-digit target, the lookup never ends in a parse error: it returns
    a programme of the list or "not found". *)
Theorem FindProgramByStation_lookup_timestamps
    (datetime : string) (progs : list Prog) :
  timestamp datetime →
  Forall (λ p, timestamp (Ft p) ∧ timestamp (To p)) progs →
  (∃ p, p ∈ progs ∧ FindProgramByStation_lookup datetime progs = (Some p, None))
  ∨ FindProgramByStation_lookup datetime progs = not_found.
Proof.
  intros [Ld Dd] Hts.
  destruct (Atoi_accepts_digits datetime Dd) as [t Ht]; [rewrite Ld; lia |].
  rewrite (lookup_parsed _ _ _ Ht).
  assert (Hp : Forall parses progs).
  { eapply Forall_impl; [exact Hts |]. intros p [Hf He].
    apply timestamp_parses; assumption. }
  destruct (loop_parsed t progs Hp) as [(l1 & p & l2 & -> & _ & _ & Hr) | [_ Hr]].
  - left. exists p. split; [| exact Hr].
    apply elem_of_app. right. apply list_elem_of_here.
  - right. exact Hr.
Qed.

End ContainmentCases.


(** ** One round trip *)

Section RoundTrip.

Context {Time Ctx Request ReadCloser : Type}.
Variable E : @Env Time Ctx Request ReadCloser.
Variable c : @Client Ctx Request ReadCloser.

(** The five fetches of the programme file share their first steps: build
    the request, send it, and hand the body of the response to a decoder
    under a deferred close.  [on_err] is what they return next to an error,
    [k] what they do with the response. *)
Lemma round_trip_cases {A} (on_err : error → A)
    (k : @Response ReadCloser → @M Ctx Request ReadCloser A)
    (ctx : Ctx) (method ep : string) (params : Params) (tr : list event) :
  (∀ resp tr0, snd (k resp tr0) = tr0 ++ [EvReadAll (Body resp)]) →
  bind (c_newRequest c ctx method ep params)
    (λ x, let (req, err) := x in
          match err with
          | Some e => ret (on_err e)
          | None =>
              bind (c_Do c req)
                (λ y, let (resp, err0) := y in
                      match err0 with
                      | Some e => ret (on_err e)
                      | None =>
                          bind (deref resp)
                            (λ resp0, defer (Body_Close (Body resp0)) (k resp0))
                      end)
          end) tr
  = match newRequest c tr ctx method ep params with
    | Panic msg => (Panic msg, tr ++ [EvNewRequest ctx method ep params])
    | Ret (_, Some e) =>
        (Ret (on_err e), tr ++ [EvNewRequest ctx method ep params])
    | Ret (req, None) =>
        match Do c (tr ++ [EvNewRequest ctx method ep params]) req with
        | Panic msg =>
            (Panic msg, tr ++ [EvNewRequest ctx method ep params; EvDo req])
        | Ret (_, Some e) =>
            (Ret (on_err e), tr ++ [EvNewRequest ctx method ep params; EvDo req])
        | Ret (None, None) =>
            (Panic "invalid memory address or nil pointer dereference",
             tr ++ [EvNewRequest ctx method ep params; EvDo req])
        | Ret (Some resp, None) =>
            (fst (k resp (tr ++ [EvNewRequest ctx method ep params; EvDo req])),
             tr ++ [EvNewRequest ctx method ep params; EvDo req;
                    EvReadAll (Body resp); EvClose (Body resp)])
        end
    end.
Proof.
  intros Hk. unfold bind at 1. unfold c_newRequest at 1. unfold call at 1.
  destruct (newRequest c tr ctx method ep params) as [[req [e |]] | msg];
    [reflexivity | | reflexivity].
  unfold bind at 1. unfold c_Do, call.
  replace ((tr ++ [EvNewRequest ctx method ep params]) ++ [EvDo req])
    with (tr ++ [EvNewRequest ctx method ep params; EvDo req])
    by (rewrite <- app_assoc; reflexivity).
  destruct (Do c _ req) as [[[resp |] [e |]] | msg]; try reflexivity.
  unfold deref, ret, bind, defer, Body_Close, call.
  specialize (Hk resp (tr ++ [EvNewRequest ctx method ep params; EvDo req])).
  destruct (k resp _) as [r tr3]. simpl in Hk. subst tr3.
  rewrite <- !app_assoc. reflexivity.
Qed.

Variable U : string → radioStationsData → radioStationsData * option error.

Lemma decodeStationsData_run (input : ReadCloser) (d0 : stationsData)
    (tr : list event) :
  decodeStationsData E input d0 tr
  = (match ioutil_ReadAll E tr input with
     | Panic msg => Panic msg
     | Ret (_, Some e) => Ret (d0, Some e)
     | Ret (b, None) => Ret (xml_Unmarshal E b d0)
     end, tr ++ [EvReadAll input]).
Proof.
  unfold decodeStationsData, ReadAll. unfold_bind. unfold bind, call, ret.
  destruct (ioutil_ReadAll E tr input) as [[b [e |]] | msg]; try reflexivity.
  destruct (xml_Unmarshal E b d0) as [d [e |]]; reflexivity.
Qed.

Lemma decodeRadioStationsData_run (input : ReadCloser) (d0 : radioStationsData)
    (tr : list event) :
  decodeRadioStationsData E U input d0 tr
  = (match ioutil_ReadAll E tr input with
     | Panic msg => Panic msg
     | Ret (_, Some e) => Ret (d0, Some e)
     | Ret (b, None) => Ret (U b d0)
     end, tr ++ [EvReadAll input]).
Proof.
  unfold decodeRadioStationsData, ReadAll. unfold_bind. unfold bind, call, ret.
  destruct (ioutil_ReadAll E tr input) as [[b [e |]] | msg]; try reflexivity.
  destruct (U b d0) as [d [e |]]; reflexivity.
Qed.

End RoundTrip.

(** Case analysis on the innermost scrutinee of the goal. *)
Ltac destruct_inner :=
  repeat match goal with
         | |- context [match ?x with _ => _ end] =>
             lazymatch x with
             | context [match _ with _ => _ end] => fail
             | _ => destruct x
             end
         end.

(** The decoder reads the body once and does nothing else outside. *)
Ltac reads_once :=
  let resp := fresh "resp" in
  let tr0 := fresh "tr0" in
  intros resp tr0; unfold bind;
  first [rewrite decodeStationsData_run | rewrite decodeRadioStationsData_run];
  unfold programs, ret, panic;
  destruct_inner;
  reflexivity.


Section FetchTraces.

Context {Time Ctx Request ReadCloser : Type}.
Variable E : @Env Time Ctx Request ReadCloser.
Variable c : @Client Ctx Request ReadCloser.
Variable U : string → radioStationsData → radioStationsData * option error.






End FetchTraces.

(** Case analysis on the innermost scrutinee of a hypothesis. *)
Ltac destruct_inner_in H :=
  repeat match type of H with
         | context [match ?x with _ => _ end] =>
             lazymatch x with
             | context [match _ with _ => _ end] => fail
             | _ => destruct x
             end
         end.

(** A fetch returned a list and an error: the list is nil. *)
Ltac error_gives_nil H :=
  unfold_bind; cbv zeta in H;
  erewrite round_trip_cases in H by reads_once;
  unfold bind in H;
  first [rewrite decodeStationsData_run in H
        | rewrite decodeRadioStationsData_run in H
        | idtac];
  unfold programs, ret, panic in H;
  destruct_inner_in H; simpl in H; try discriminate;
  injection H as <-; reflexivity.

Section FetchResults.

Context {Time Ctx Request ReadCloser : Type}.
Variable E : @Env Time Ctx Request ReadCloser.
Variable c : @Client Ctx Request ReadCloser.
Variable U : string → radioStationsData → radioStationsData * option error.

(** X11: [GetStations] returns a nil error exactly when the request was built,
    the round trip gave a response, the body was read and decoded, each
    without error; it then returns the stations of the decoded data, and the
    body was read once and closed. *)
Theorem GetStations_success_iff
    (ctx : Ctx) (date : Time) (tr tr' : list event) (ss : Stations) :
  GetStations E c ctx date tr = (Ret (ss, None), tr') ↔
  ∃ req resp b d,
    newRequest c tr ctx "GET"
      (path_Join E [apiV3 E; "program/date"; util_ProgramsDate E date;
                    Sprintf_xml (AreaID c)]) Params_empty = Ret (req, None) ∧
    Do c (tr ++ [EvNewRequest ctx "GET"
                   (path_Join E [apiV3 E; "program/date"; util_ProgramsDate E date;
                                 Sprintf_xml (AreaID c)]) Params_empty]) req
    = Ret (Some resp, None) ∧
    ioutil_ReadAll E
      (tr ++ [EvNewRequest ctx "GET"
                (path_Join E [apiV3 E; "program/date"; util_ProgramsDate E date;
                              Sprintf_xml (AreaID c)]) Params_empty; EvDo req])
      (Body resp) = Ret (b, None) ∧
    xml_Unmarshal E b stationsData_zero = (d, None) ∧
    ss = stations d ∧
    tr' = tr ++ [EvNewRequest ctx "GET"
                   (path_Join E [apiV3 E; "program/date"; util_ProgramsDate E date;
                                 Sprintf_xml (AreaID c)]) Params_empty;
                 EvDo req; EvReadAll (Body resp); EvClose (Body resp)].
Proof.
  unfold GetStations. unfold_bind. cbv zeta.
  erewrite round_trip_cases by reads_once. split.
  - intros H.
    destruct (newRequest c tr ctx _ _ _) as [[req [e |]] | msg] eqn:HN;
      try discriminate.
    destruct (Do c _ req) as [[[resp |] [e |]] | msg] eqn:HD; try discriminate.
    unfold bind in H. rewrite decodeStationsData_run in H.
    destruct (ioutil_ReadAll E _ (Body resp)) as [[b [e |]] | msg] eqn:HR;
      try discriminate.
    destruct (xml_Unmarshal E b stationsData_zero) as [d [e |]] eqn:HU;
      try discriminate.
    simpl in H. injection H as <- <-. exists req, resp, b, d. auto 10.
  - intros (req & resp & b & d & HN & HD & HR & HU & -> & ->).
    rewrite HN, HD. unfold bind. rewrite decodeStationsData_run, HR, HU.
    reflexivity.
Qed.

(** X13: [GetProgramsByStation] returns a nil error exactly when every step
    succeeded and the decoded data has at least one station; it then returns
    the programmes of the first decoded station, whatever that station's
    identifier is and whatever stations follow it. *)
Theorem GetProgramsByStation_success_iff
    (ctx : Ctx) (stationId : string) (date : Time) (tr tr' : list event)
    (progs : list Prog) :
  GetProgramsByStation E c ctx stationId date tr = (Ret (progs, None), tr') ↔
  ∃ req resp b d s others,
    newRequest c tr ctx "GET"
      (path_Join E [apiV3 E; "program/station/date"; util_ProgramsDate E date;
                    Sprintf_xml stationId]) Params_empty = Ret (req, None) ∧
    Do c (tr ++ [EvNewRequest ctx "GET"
                   (path_Join E [apiV3 E; "program/station/date";
                                 util_ProgramsDate E date; Sprintf_xml stationId])
                   Params_empty]) req
    = Ret (Some resp, None) ∧
    ioutil_ReadAll E
      (tr ++ [EvNewRequest ctx "GET"
                (path_Join E [apiV3 E; "program/station/date";
                              util_ProgramsDate E date; Sprintf_xml stationId])
                Params_empty; EvDo req])
      (Body resp) = Ret (b, None) ∧
    xml_Unmarshal E b stationsData_zero = (d, None) ∧
    stations d = s :: others ∧
    progs = Progs_Progs (Station_Progs s) ∧
    tr' = tr ++ [EvNewRequest ctx "GET"
                   (path_Join E [apiV3 E; "program/station/date";
                                 util_ProgramsDate E date; Sprintf_xml stationId])
                   Params_empty;
                 EvDo req; EvReadAll (Body resp); EvClose (Body resp)].
Proof.
  unfold GetProgramsByStation. unfold_bind. cbv zeta.
  erewrite round_trip_cases by reads_once. split.
  - intros H.
    destruct (newRequest c tr ctx _ _ _) as [[req [e |]] | msg] eqn:HN;
      try discriminate.
    destruct (Do c _ req) as [[[resp |] [e |]] | msg] eqn:HD; try discriminate.
    unfold bind in H. rewrite decodeStationsData_run in H.
    destruct (ioutil_ReadAll E _ (Body resp)) as [[b [e |]] | msg] eqn:HR;
      try discriminate.
    destruct (xml_Unmarshal E b stationsData_zero) as [d [e |]] eqn:HU;
      try discriminate.
    unfold programs in H.
    destruct (XMLStations_Stations (XMLStations d)) as [| s others] eqn:Hst;
      simpl in H; [discriminate |].
    injection H as <- <-. exists req, resp, b, d, s, others. auto 10.
  - intros (req & resp & b & d & s & others & HN & HD & HR & HU & Hst & -> & ->).
    rewrite HN, HD. unfold bind. rewrite decodeStationsData_run, HR, HU.
    unfold programs. unfold stations in Hst. rewrite Hst. reflexivity.
Qed.

(** X17: [GetRadioStations] returns a nil error exactly when every step
    succeeded; it then returns the station list of the decoded data. *)
Theorem GetRadioStations_success_iff
    (ctx : Ctx) (tr tr' : list event) (rs : RadioStations) :
  GetRadioStations E U c ctx tr = (Ret (rs, None), tr') ↔
  ∃ req resp b d,
    newRequest c tr ctx "GET"
      (path_Join E [apiV3 E; "station/list"; Sprintf_xml (AreaID c)])
      Params_empty = Ret (req, None) ∧
    Do c (tr ++ [EvNewRequest ctx "GET"
                   (path_Join E [apiV3 E; "station/list"; Sprintf_xml (AreaID c)])
                   Params_empty]) req
    = Ret (Some resp, None) ∧
    ioutil_ReadAll E
      (tr ++ [EvNewRequest ctx "GET"
                (path_Join E [apiV3 E; "station/list"; Sprintf_xml (AreaID c)])
                Params_empty; EvDo req])
      (Body resp) = Ret (b, None) ∧
    U b radioStationsData_zero = (d, None) ∧
    rs = radioStations d ∧
    tr' = tr ++ [EvNewRequest ctx "GET"
                   (path_Join E [apiV3 E; "station/list"; Sprintf_xml (AreaID c)])
                   Params_empty;
                 EvDo req; EvReadAll (Body resp); EvClose (Body resp)].
Proof.
  unfold GetRadioStations. unfold_bind. cbv zeta.
  erewrite round_trip_cases by reads_once. split.
  - intros H.
    destruct (newRequest c tr ctx _ _ _) as [[req [e |]] | msg] eqn:HN;
      try discriminate.
    destruct (Do c _ req) as [[[resp |] [e |]] | msg] eqn:HD; try discriminate.
    unfold bind in H. rewrite decodeRadioStationsData_run in H.
    destruct (ioutil_ReadAll E _ (Body resp)) as [[b [e |]] | msg] eqn:HR;
      try discriminate.
    destruct (U b radioStationsData_zero) as [d [e |]] eqn:HU; try discriminate.
    simpl in H. injection H as <- <-. exists req, resp, b, d. auto 10.
  - intros (req & resp & b & d & HN & HD & HR & HU & -> & ->).
    rewrite HN, HD. unfold bind. rewrite decodeRadioStationsData_run, HR, HU.
    reflexivity.
Qed.

(** X18: When one of the five fetches returns an error, the list it returns with
    it is nil, also when the error comes from a decoder that had already
    filled part of the data. *)
Theorem fetch_error_gives_nil (ctx : Ctx) (tr : list event) :
  (∀ date ss e tr', GetStations E c ctx date tr = (Ret (ss, Some e), tr') → ss = [])
  ∧ (∀ stationId date ps e tr',
       GetProgramsByStation E c ctx stationId date tr = (Ret (ps, Some e), tr') →
       ps = [])
  ∧ (∀ ss e tr', GetNowPrograms E c ctx tr = (Ret (ss, Some e), tr') → ss = [])
  ∧ (∀ stationID ss e tr',
       GetWeeklyPrograms E c ctx stationID tr = (Ret (ss, Some e), tr') → ss = [])
  ∧ (∀ rs e tr', GetRadioStations E U c ctx tr = (Ret (rs, Some e), tr') → rs = []).
Proof.
  repeat split.
  - intros date ss e tr' H. unfold GetStations in H. error_gives_nil H.
  - intros stationId date ps e tr' H. unfold GetProgramsByStation in H.
    error_gives_nil H.
  - intros ss e tr' H. unfold GetNowPrograms in H. error_gives_nil H.
  - intros stationID ss e tr' H. unfold GetWeeklyPrograms in H. error_gives_nil H.
  - intros rs e tr' H. unfold GetRadioStations in H. error_gives_nil H.
Qed.

End FetchResults.


(** ** More on the exact-start lookup and the resolver *)

Section ExactStartCases.

Context {Time Ctx Request ReadCloser : Type}.
Variable E : @Env Time Ctx Request ReadCloser.
Variable c : @Client Ctx Request ReadCloser.

(** A programme left in [prog] by the loops was there before or starts at
    [ft] in a station that has the identifier. *)
Lemma GetProgramByStartTime_stations_some (stationID ft : string)
    (ss : list Station) :
  ∀ prog p,
    GetProgramByStartTime_stations stationID ft ss prog = Some p →
    prog = Some p ∨
    (Ft p = ft ∧
     ∃ s, s ∈ ss ∧ Station_ID s = stationID ∧ p ∈ Progs_Progs (Station_Progs s)).
Proof.
  induction ss as [| s ss IH]; intros prog p H; cbn [GetProgramByStartTime_stations] in H.
  - left. exact H.
  - apply IH in H as [H | (Hft & s' & Hin & Hid & Hp)].
    + destruct (String.eqb_spec (Station_ID s) stationID) as [Hid | Hid];
        [| left; exact H].
      rewrite GetProgramByStartTime_progs_find in H.
      destruct (List.find _ _) as [q |] eqn:Hf; [| left; exact H].
      injection H as ->. apply List.find_some in Hf as [Hin Heq].
      right. split; [apply String.eqb_eq, Heq |].
      exists s. split; [apply list_elem_of_here |].
      split; [exact Hid | apply list_elem_of_In, Hin].
    + right. split; [exact Hft |]. exists s'.
      split; [apply list_elem_of_further, Hin | auto].
Qed.

(** The loops leave [nil] only when it was [nil] before and no station with
    the identifier has a programme starting at [ft]. *)
Lemma GetProgramByStartTime_stations_none (stationID ft : string)
    (ss : list Station) :
  ∀ prog,
    GetProgramByStartTime_stations stationID ft ss prog = None →
    prog = None ∧
    ∀ s, s ∈ ss → Station_ID s = stationID →
         ∀ p, p ∈ Progs_Progs (Station_Progs s) → Ft p ≠ ft.
Proof.
  induction ss as [| s ss IH]; intros prog H; cbn [GetProgramByStartTime_stations] in H.
  - split; [exact H |]. intros s Hs. apply not_elem_of_nil in Hs. destruct Hs.
  - apply IH in H as [H Hrest].
    destruct (String.eqb_spec (Station_ID s) stationID) as [Hid | Hid].
    + rewrite GetProgramByStartTime_progs_find in H.
      destruct (List.find _ _) as [q |] eqn:Hf; [discriminate |].
      split; [exact H |].
      intros s' Hs' Hid' p Hp. apply elem_of_cons in Hs' as [-> | Hs'].
      * apply list_elem_of_In in Hp.
        pose proof (List.find_none _ _ Hf p Hp) as Hne.
        apply String.eqb_neq, Hne.
      * eapply Hrest; eassumption.
    + split; [exact H |].
      intros s' Hs' Hid' p Hp. apply elem_of_cons in Hs' as [-> | Hs'].
      * contradiction.
      * eapply Hrest; eassumption.
Qed.

(** X6: On a fetched snapshot and with a non-empty identifier: a programme that
    [GetProgramByStartTime] returns starts at the formatted instant and is
    listed under [Progs] of a station with the identifier; a programme is
    returned exactly when such a programme exists in the snapshot, and
    [ErrProgramNotFound] exactly when none exists. *)
Theorem GetProgramByStartTime_found_iff
    (ctx : Ctx) (stationID : string) (start : Time) (tr tr' : list event)
    (ss : Stations) :
  stationID ≠ "" →
  GetStations E c ctx start tr = (Ret (ss, None), tr') →
  (∀ p, GetProgramByStartTime E c ctx stationID start tr
        = (Ret (Some p, None), tr') →
        Ft p = util_Datetime E start ∧
        ∃ s, s ∈ ss ∧ Station_ID s = stationID ∧
             p ∈ Progs_Progs (Station_Progs s))
  ∧ ((∃ p, GetProgramByStartTime E c ctx stationID start tr
           = (Ret (Some p, None), tr')) ↔
     ∃ s p, s ∈ ss ∧ Station_ID s = stationID ∧
            p ∈ Progs_Progs (Station_Progs s) ∧ Ft p = util_Datetime E start)
  ∧ (GetProgramByStartTime E c ctx stationID start tr
     = (Ret (None, Some ErrProgramNotFound), tr') ↔
     ¬ ∃ s p, s ∈ ss ∧ Station_ID s = stationID ∧
              p ∈ Progs_Progs (Station_Progs s) ∧ Ft p = util_Datetime E start).
Proof.
  intros Hid HS. rewrite (GetProgramByStartTime_fetched _ _ _ _ _ _ _ _ Hid HS).
  destruct (GetProgramByStartTime_stations stationID (util_Datetime E start) ss None)
    as [q |] eqn:Hl.
  - apply GetProgramByStartTime_stations_some in Hl as [Hl | (Hft & s & Hin & Hs & Hp)];
      [discriminate |].
    split; [| split].
    + intros p [= <-]. eauto.
    + split; [intros _; eauto 10 | intros _; eauto].
    + split; [discriminate | intros Hn; exfalso; apply Hn; eauto 10].
  - apply GetProgramByStartTime_stations_none in Hl as [_ Hno].
    split; [| split].
    + intros p [=].
    + split; [intros [p [=]] |].
      intros (s & p & Hin & Hs & Hp & Hft). exfalso. eapply Hno; eassumption.
    + split; [| reflexivity].
      intros _ (s & p & Hin & Hs & Hp & Hft). eapply Hno; eassumption.
Qed.

(** X7: On a fetched snapshot whose station identifiers do not repeat,
    [GetProgramByStartTime] returns the first programme starting at the
    formatted instant of the station with the identifier, and
    [ErrProgramNotFound] when there is no such station or programme. *)
Theorem GetProgramByStartTime_unique_ids
    (ctx : Ctx) (stationID : string) (start : Time) (tr tr' : list event)
    (ss : Stations) :
  stationID ≠ "" →
  GetStations E c ctx start tr = (Ret (ss, None), tr') →
  NoDup (Station_ID <$> ss) →
  GetProgramByStartTime E c ctx stationID start tr
  = (Ret (match exact_start_spec stationID (util_Datetime E start) ss with
          | Some p => (Some p, None)
          | None => (None, Some ErrProgramNotFound)
          end), tr').
Proof.
  intros Hid HS Hnd. rewrite (GetProgramByStartTime_fetched _ _ _ _ _ _ _ _ Hid HS).
  rewrite GetProgramByStartTime_stations_unique by exact Hnd. reflexivity.
Qed.

(** X8: On any fetched snapshot, [GetProgramByStartTime] returns the first
    programme starting at the formatted instant of the last station, in
    snapshot order, that has the identifier and such a programme. *)
Theorem GetProgramByStartTime_last_station
    (ctx : Ctx) (stationID : string) (start : Time) (tr tr' : list event)
    (ss : Stations) :
  stationID ≠ "" →
  GetStations E c ctx start tr = (Ret (ss, None), tr') →
  GetProgramByStartTime E c ctx stationID start tr
  = (Ret (match exact_start_last stationID (util_Datetime E start) ss with
          | Some p => (Some p, None)
          | None => (None, Some ErrProgramNotFound)
          end), tr').
Proof.
  intros Hid HS. rewrite (GetProgramByStartTime_fetched _ _ _ _ _ _ _ _ Hid HS).
  rewrite GetProgramByStartTime_stations_last. reflexivity.
Qed.

End ExactStartCases.

Section ResolverCases.

Context {Time Ctx Request ReadCloser : Type}.
Variable E : @Env Time Ctx Request ReadCloser.
Variable c : @Client Ctx Request ReadCloser.

(** X19: After a successful lookup and an authenticated call that gave a
    response, the resolver returns what the URI extractor returns, string and
    error alike, and the body of the response is closed after the
    extraction. *)
Theorem TimeshiftPlaylistM3U8_extraction
    (ctx : Ctx) (stationID : string) (start : Time) (tr tr1 : list event)
    (prog : Prog) (req : option Request) (err0 : option error)
    (resp : Response) (uri : string) (err : option error) :
  GetProgramByStartTime E c ctx stationID start tr = (Ret (Some prog, None), tr1) →
  newRequest c tr1 ctx "POST" (apiPath E (apiV2 E) "ts/playlist.m3u8")
    (mkParams {[ "station_id" := stationID; "ft" := Ft prog;
                 "to" := To prog; "l" := "15" ]}) = Ret (req, err0) →
  CallWithAuthTokenHeader c
    (tr1 ++ [EvNewRequest ctx "POST" (apiPath E (apiV2 E) "ts/playlist.m3u8")
               (mkParams {[ "station_id" := stationID; "ft" := Ft prog;
                            "to" := To prog; "l" := "15" ]})]) req
  = Ret (Some resp, None) →
  internal_GetURIFromM3U8 E
    (tr1 ++ [EvNewRequest ctx "POST" (apiPath E (apiV2 E) "ts/playlist.m3u8")
               (mkParams {[ "station_id" := stationID; "ft" := Ft prog;
                            "to" := To prog; "l" := "15" ]});
             EvCallWithAuthTokenHeader req]) (Body resp)
  = Ret (uri, err) →
  TimeshiftPlaylistM3U8 E c ctx stationID start tr
  = (Ret (uri, err),
     tr1 ++ [EvNewRequest ctx "POST" (apiPath E (apiV2 E) "ts/playlist.m3u8")
               (mkParams {[ "station_id" := stationID; "ft" := Ft prog;
                            "to" := To prog; "l" := "15" ]});
             EvCallWithAuthTokenHeader req;
             EvGetURIFromM3U8 (Body resp); EvClose (Body resp)]).
Proof.
  intros HP HN HC HU. unfold TimeshiftPlaylistM3U8. unfold_bind.
  unfold bind at 1. rewrite HP.
  unfold deref, ret, bind, c_newRequest, c_CallWithAuthTokenHeader,
    defer, GetURIFromM3U8, Body_Close, call.
  rewrite HN, HC. rewrite <- !app_assoc. cbn [app].
  rewrite HU. rewrite <- ?app_assoc. reflexivity.
Qed.

(** X9: With a non-empty identifier the exact-start lookup touches the outside
    only through [GetStations]; what it returns has a programme or an error,
    never both and never neither. *)
Theorem GetProgramByStartTime_shape
    (ctx : Ctx) (stationID : string) (start : Time) (tr : list event) :
  (stationID ≠ "" →
   snd (GetProgramByStartTime E c ctx stationID start tr)
   = snd (GetStations E c ctx start tr))
  ∧ ∀ prog err tr',
      GetProgramByStartTime E c ctx stationID start tr = (Ret (prog, err), tr') →
      (∃ p, prog = Some p ∧ err = None) ∨ (prog = None ∧ ∃ e, err = Some e).
Proof.
  unfold GetProgramByStartTime. split.
  - intros Hid. apply String.eqb_neq in Hid. rewrite Hid.
    unfold_bind. unfold bind.
    destruct (GetStations E c ctx start tr) as [[[ss [e |]] | msg] tr1];
      try reflexivity.
    destruct (GetProgramByStartTime_stations _ _ _ _); reflexivity.
  - intros prog err tr'. destruct (String.eqb stationID "").
    + intros [= <- <- _]. right. eauto.
    + unfold_bind. unfold bind.
      destruct (GetStations E c ctx start tr) as [[[ss [e |]] | msg] tr1].
      * intros [= <- <- _]. right. eauto.
      * destruct (GetProgramByStartTime_stations _ _ _ _);
          intros [= <- <- _]; [left | right]; eauto.
      * discriminate.
Qed.

(** X5: [FindProgramByStation] touches the outside only through
    [GetProgramsByStation]; what it returns has a programme or an error, never
    both and never neither; a fetch error is returned before the target is
    parsed. *)
Theorem FindProgramByStation_shape
    (ctx : Ctx) (stationId : string) (date : Time) (tr : list event) :
  snd (FindProgramByStation E c ctx stationId date tr)
  = snd (GetProgramsByStation E c ctx stationId date tr)
  ∧ (∀ prog err tr',
       FindProgramByStation E c ctx stationId date tr = (Ret (prog, err), tr') →
       (∃ p, prog = Some p ∧ err = None) ∨ (prog = None ∧ ∃ e, err = Some e))
  ∧ (∀ progs e tr',
       GetProgramsByStation E c ctx stationId date tr = (Ret (progs, Some e), tr') →
       FindProgramByStation E c ctx stationId date tr = (Ret (None, Some e), tr')).
Proof.
  unfold FindProgramByStation. unfold_bind. unfold bind.
  split; [| split].
  - destruct (GetProgramsByStation E c ctx stationId date tr)
      as [[[ps [e |]] | msg] tr1]; reflexivity.
  - intros prog err tr'.
    destruct (GetProgramsByStation E c ctx stationId date tr)
      as [[[ps [e |]] | msg] tr1].
    + intros [= <- <- _]. right. eauto.
    + unfold ret. intros [= Hr _].
      unfold FindProgramByStation_lookup in Hr.
      destruct (strconv.Atoi (util_Datetime E date)) as [t [e |]].
      { injection Hr as <- <-. right. eauto. }
      destruct (loop_cases t ps)
        as [(l1 & p & l2 & _ & _ & _ & _ & Hl)
           | [(_ & _ & Hl) | (l1 & q & l2 & s & k & _ & _ & _ & _ & _ & Hl)]];
        rewrite Hl in Hr; injection Hr as <- <-; [left | right | right]; eauto.
    + discriminate.
  - intros progs e tr' ->. reflexivity.
Qed.

(** X20: Whatever the client and the environment answer, the resolver adds to the
    trace nothing, or what the schedule fetch adds, or one complete schedule
    fetch followed by the playlist request of one programme, then at most one
    authenticated call, then at most one extraction from the body of the
    answer followed by the close of that body. *)
Theorem TimeshiftPlaylistM3U8_trace
    (ctx : Ctx) (stationID : string) (start : Time) (tr : list event) :
  ∃ rest,
    snd (TimeshiftPlaylistM3U8 E c ctx stationID start tr) = tr ++ rest ∧
    resolver_trace
      (EvNewRequest ctx "GET"
         (path_Join E [apiV3 E; "program/date"; util_ProgramsDate E start;
                       Sprintf_xml (AreaID c)]) Params_empty)
      (λ prog,
         EvNewRequest ctx "POST" (apiPath E (apiV2 E) "ts/playlist.m3u8")
           (mkParams {[ "station_id" := stationID; "ft" := Ft prog;
                        "to" := To prog; "l" := "15" ]}))
      rest.
Proof.
  unfold TimeshiftPlaylistM3U8, GetProgramByStartTime.
  destruct (String.eqb stationID "").
  { exists []. split; [simpl; by rewrite app_nil_r | left; reflexivity]. }
  unfold GetStations. unfold_bind. cbv zeta.
  unfold bind at 1. unfold bind at 1.
  erewrite round_trip_cases by reads_once.
  destruct (newRequest c tr ctx "GET" _ _) as [[req0 [e |]] | msg];
    try (eexists; split; [reflexivity |]; right; left; unfold fetch_trace; eauto).
  destruct (Do c _ req0) as [[[resp0 |] [e |]] | msg];
    try (eexists; split; [reflexivity |]; right; left; unfold fetch_trace; eauto).
  destruct (fst _) as [[ss [e |]] | msg];
    try (eexists; split; [reflexivity |]; right; left; unfold fetch_trace; eauto 10).
  destruct (GetProgramByStartTime_stations _ _ ss None) as [prog |];
    try (eexists; split; [reflexivity |]; right; left; unfold fetch_trace; eauto 10).
  cbv beta iota delta [ret panic deref bind c_newRequest
                         c_CallWithAuthTokenHeader defer GetURIFromM3U8
                         Body_Close call].
  match goal with
  | |- context [newRequest c ?t ctx "POST" ?e ?p] =>
      destruct (newRequest c t ctx "POST" e p) as [[req err0] | msg]
  end.
  2: { eexists. split; [rewrite <- app_assoc; reflexivity |].
       right; right. exists req0, (Body resp0), prog. left. reflexivity. }
  match goal with
  | |- context [CallWithAuthTokenHeader c ?t req] =>
      destruct (CallWithAuthTokenHeader c t req) as [[[resp |] [e |]] | msg]
  end;
    try (eexists; split; [rewrite <- !app_assoc; reflexivity |];
         right; right; exists req0, (Body resp0), prog; right; left;
         exists req; reflexivity).
  match goal with
  | |- context [internal_GetURIFromM3U8 E ?t (Body resp)] =>
      destruct (internal_GetURIFromM3U8 E t (Body resp)) as [r | msg]
  end;
    (eexists; split; [cbn [snd]; rewrite <- !app_assoc; reflexivity |];
     right; right; exists req0, (Body resp0), prog; right; right;
     exists req, (Body resp); reflexivity).
Qed.

End ResolverCases.

(** ** Further statements at concrete inputs *)

Section MoreInstances.

Lemma lookup_150 :
  FindProgramByStation_lookup "150" Demo.scenarioB = (Some Demo.p1, None).
Proof. reflexivity. Qed.

Lemma FindProgramByStation_lookup_sound_witness :
  FindProgramByStation_lookup "150" Demo.scenarioB = (Some Demo.p1, None) ∧
  ∃ t l1 l2, strconv.Atoi "150" = (t, None) ∧ Demo.scenarioB = l1 ++ Demo.p1 :: l2 ∧
             covers Demo.p1 t ∧ Forall parses l1 ∧
             Forall (λ q, ¬ covers q t) l1.
Proof.
  exact (conj lookup_150
           (FindProgramByStation_lookup_sound "150" Demo.scenarioB Demo.p1 lookup_150)).
Defined.

Lemma timestamp_0530 : timestamp "20240101053000".
Proof. split; reflexivity. Qed.

Lemma news_timestamps :
  Forall (λ p, timestamp (Ft p) ∧ timestamp (To p)) [Demo.news].
Proof. apply Forall_singleton. repeat split; reflexivity. Qed.

Lemma FindProgramByStation_lookup_timestamps_witness :
  timestamp "20240101053000" ∧
  Forall (λ p, timestamp (Ft p) ∧ timestamp (To p)) [Demo.news] ∧
  ((∃ p, p ∈ [Demo.news] ∧
         FindProgramByStation_lookup "20240101053000" [Demo.news] = (Some p, None))
   ∨ FindProgramByStation_lookup "20240101053000" [Demo.news] = not_found).
Proof.
  exact (conj timestamp_0530 (conj news_timestamps
           (FindProgramByStation_lookup_timestamps "20240101053000" [Demo.news]
              timestamp_0530 news_timestamps))).
Defined.

Lemma GetProgramByStartTime_found_iff_witness :
  "JOAK" ≠ "" ∧
  GetStations (Demo.env Demo.snapshotA) Demo.client tt "20240101050000" []
  = (Ret (Demo.snapshotA, None),
     [EvNewRequest tt "GET" "v3/program/date/20240101/JP13.xml" Params_empty;
      EvDo (Some ("GET", "v3/program/date/20240101/JP13.xml"));
      EvReadAll 1%nat; EvClose 1%nat]) ∧
  (Ft Demo.news = "20240101050000" ∧
   ∃ s, s ∈ Demo.snapshotA ∧ Station_ID s = "JOAK" ∧
        Demo.news ∈ Progs_Progs (Station_Progs s)).
Proof.
  exact (conj JOAK_not_empty
        (conj (GetStations_snapshotA "20240101050000" eq_refl)
           (proj1 (GetProgramByStartTime_found_iff
                     (Demo.env Demo.snapshotA) Demo.client tt "JOAK"
                     "20240101050000" [] _ Demo.snapshotA JOAK_not_empty
                     (GetStations_snapshotA "20240101050000" eq_refl))
                  Demo.news GetProgramByStartTime_snapshotA))).
Defined.

Lemma snapshotA_ids_unique : NoDup (Station_ID <$> Demo.snapshotA).
Proof. apply NoDup_singleton. Qed.

Lemma GetProgramByStartTime_unique_ids_witness :
  "JOAK" ≠ "" ∧ NoDup (Station_ID <$> Demo.snapshotA) ∧
  GetProgramByStartTime (Demo.env Demo.snapshotA) Demo.client tt
    "JOAK" "20240101050000" []
  = (Ret (Some Demo.news, None),
     [EvNewRequest tt "GET" "v3/program/date/20240101/JP13.xml" Params_empty;
      EvDo (Some ("GET", "v3/program/date/20240101/JP13.xml"));
      EvReadAll 1%nat; EvClose 1%nat]).
Proof.
  exact (conj JOAK_not_empty (conj snapshotA_ids_unique
           (GetProgramByStartTime_unique_ids
              (Demo.env Demo.snapshotA) Demo.client tt "JOAK" "20240101050000"
              [] _ Demo.snapshotA JOAK_not_empty
              (GetStations_snapshotA "20240101050000" eq_refl)
              snapshotA_ids_unique))).
Defined.

Lemma GetStations_snapshot_dup :
  GetStations (Demo.env Demo.snapshot_dup) Demo.client tt "20240101050000" []
  = (Ret (Demo.snapshot_dup, None),
     [EvNewRequest tt "GET" "v3/program/date/20240101/JP13.xml" Params_empty;
      EvDo (Some ("GET", "v3/program/date/20240101/JP13.xml"));
      EvReadAll 1%nat; EvClose 1%nat]).
Proof. vm_compute. reflexivity. Qed.

Lemma GetProgramByStartTime_last_station_witness :
  "JOAK" ≠ "" ∧
  GetProgramByStartTime (Demo.env Demo.snapshot_dup) Demo.client tt
    "JOAK" "20240101050000" []
  = (Ret (Some Demo.music, None),
     [EvNewRequest tt "GET" "v3/program/date/20240101/JP13.xml" Params_empty;
      EvDo (Some ("GET", "v3/program/date/20240101/JP13.xml"));
      EvReadAll 1%nat; EvClose 1%nat]).
Proof.
  exact (conj JOAK_not_empty
           (GetProgramByStartTime_last_station
              (Demo.env Demo.snapshot_dup) Demo.client tt "JOAK" "20240101050000"
              [] _ Demo.snapshot_dup JOAK_not_empty GetStations_snapshot_dup)).
Defined.

Lemma GetProgramByStartTime_no_uri :
  GetProgramByStartTime (Demo.env_no_uri Demo.snapshotA) Demo.client tt
    "JOAK" "20240101050000" []
  = (Ret (Some Demo.news, None),
     [EvNewRequest tt "GET" "v3/program/date/20240101/JP13.xml" Params_empty;
      EvDo (Some ("GET", "v3/program/date/20240101/JP13.xml"));
      EvReadAll 1%nat; EvClose 1%nat]).
Proof. vm_compute. reflexivity. Qed.

(** A playlist body without a URI: the resolver returns the extractor's
    error, not [ErrProgramNotFound]. *)
Lemma TimeshiftPlaylistM3U8_extraction_witness :
  GetProgramByStartTime (Demo.env_no_uri Demo.snapshotA) Demo.client tt
    "JOAK" "20240101050000" []
  = (Ret (Some Demo.news, None),
     [EvNewRequest tt "GET" "v3/program/date/20240101/JP13.xml" Params_empty;
      EvDo (Some ("GET", "v3/program/date/20240101/JP13.xml"));
      EvReadAll 1%nat; EvClose 1%nat]) ∧
  TimeshiftPlaylistM3U8 (Demo.env_no_uri Demo.snapshotA) Demo.client tt
    "JOAK" "20240101050000" []
  = (Ret ("", Some (OtherError "invalid m3u8 format")),
     [EvNewRequest tt "GET" "v3/program/date/20240101/JP13.xml" Params_empty;
      EvDo (Some ("GET", "v3/program/date/20240101/JP13.xml"));
      EvReadAll 1%nat; EvClose 1%nat]
     ++ [EvNewRequest tt "POST" "v2/api/ts/playlist.m3u8"
           (mkParams {[ "station_id" := "JOAK"; "ft" := "20240101050000";
                        "to" := "20240101060000"; "l" := "15" ]});
         EvCallWithAuthTokenHeader (Some ("POST", "v2/api/ts/playlist.m3u8"));
         EvGetURIFromM3U8 2%nat; EvClose 2%nat]).
Proof.
  exact (conj GetProgramByStartTime_no_uri
           (TimeshiftPlaylistM3U8_extraction
              (Demo.env_no_uri Demo.snapshotA) Demo.client tt "JOAK"
              "20240101050000" [] _ Demo.news
              (Some ("POST", "v2/api/ts/playlist.m3u8")) None (mkResponse 2%nat)
              "" (Some (OtherError "invalid m3u8 format"))
              GetProgramByStartTime_no_uri eq_refl eq_refl eq_refl)).
Defined.

Lemma GetStations_partial :
  GetStations (Demo.env_partial Demo.snapshotA) Demo.client tt "20240101050000" []
  = (Ret ([], Some (OtherError "XML syntax error: unexpected EOF")),
     [EvNewRequest tt "GET" "v3/program/date/20240101/JP13.xml" Params_empty;
      EvDo (Some ("GET", "v3/program/date/20240101/JP13.xml"));
      EvReadAll 1%nat; EvClose 1%nat]).
Proof. vm_compute. reflexivity. Qed.

(** The decoder had filled one station before it failed; none is returned. *)
Lemma fetch_error_gives_nil_witness :
  xml_Unmarshal (Demo.env_partial Demo.snapshotA) "<radiko>" stationsData_zero
  = (Demo.data Demo.snapshotA, Some (OtherError "XML syntax error: unexpected EOF")) ∧
  GetStations (Demo.env_partial Demo.snapshotA) Demo.client tt "20240101050000" []
  = (Ret ([], Some (OtherError "XML syntax error: unexpected EOF")),
     [EvNewRequest tt "GET" "v3/program/date/20240101/JP13.xml" Params_empty;
      EvDo (Some ("GET", "v3/program/date/20240101/JP13.xml"));
      EvReadAll 1%nat; EvClose 1%nat]) ∧
  @nil Station = [].
Proof.
  exact (conj eq_refl (conj GetStations_partial
           (proj1 (fetch_error_gives_nil
                     (Demo.env_partial Demo.snapshotA) Demo.client
                     Demo.unmarshal_radio tt [])
                  "20240101050000" [] _ _ GetStations_partial))).
Defined.

(** The station list is fetched and decoded. *)
Example GetRadioStations_demo :
  GetRadioStations (Demo.env Demo.snapshotA) Demo.unmarshal_radio Demo.client tt []
  = (Ret (Demo.radio, None),
     [EvNewRequest tt "GET" "v3/station/list/JP13.xml" Params_empty;
      EvDo (Some ("GET", "v3/station/list/JP13.xml"));
      EvReadAll 1%nat; EvClose 1%nat]).
Proof. vm_compute. reflexivity. Qed.

(** The first decoded station's programmes are returned for any requested
    identifier. *)
Example GetProgramsByStation_other_station :
  fst (GetProgramsByStation (Demo.env [Demo.station "TBS" Demo.scenarioB])
         Demo.client tt "JOAK" "20240101050000" [])
  = Ret (Demo.scenarioB, None).
Proof. vm_compute. reflexivity. Qed.

End MoreInstances.
